(** * rqt_joint_trajectory_controller: the session core of the plugin

    A shallow embedding of
    [rqt_joint_trajectory_controller/joint_trajectory_controller.py]:
    the two module-level helpers ([_jtc_joint_names],
    [_resolve_controller_ns]) as pure functions, and the methods of the
    [JointTrajectoryController] plugin as computations in a small
    state-and-exception monad over a record of the plugin's attributes.

    Python [str] is [string] (a sequence of bytes; for UTF-8 text the
    byte-wise order used below coincides with Python's code-point order),
    Python [float] is the kernel's binary64 [float], a [dict] keyed by
    strings is a [gmap string _], and a raised exception is the [Raise]
    outcome of a computation, which keeps the attributes as they were
    when it was raised. *)

From Stdlib Require Import PrimFloat.
From Stdlib Require Import FloatOps.
From Stdlib Require Import Ascii.
From Stdlib Require String.
From Stdlib Require Import Sorting.Sorted.
From stdpp Require Import gmap strings list fin_maps sorting.

(** ** Python values and exceptions *)

Inductive exn : Type :=
| AssertionError
| KeyError (key : string)
| IndexError
| StopIteration
| TypeError
| AttributeError
| ValueError
| OverflowError
| ZeroDivisionError
| RecursionError.

Inductive result (A : Type) : Type :=
| Ok (a : A)
| Raise (e : exn).
Arguments Ok {A} a.
Arguments Raise {A} e.

Definition is_ok {A} (r : result A) : bool :=
  match r with Ok _ => true | Raise _ => false end.

(** Truth value of a [str]: only the empty string is falsy. *)
Definition truthy (s : string) : bool :=
  match s with EmptyString => false | String _ _ => true end.

(** ** String primitives: [str.split], [str.rsplit], [str.join] *)

Module Str.

Definition slash : ascii := "/"%char.

Definition is_slash (c : ascii) : bool := Ascii.eqb c slash.

(** [s.split("/")]: one segment more than there are slashes, so the
    result is never empty ([""] splits into [[""]]). *)
Fixpoint split (s : string) : list string :=
  match s with
  | EmptyString => [EmptyString]
  | String c r =>
      if is_slash c then EmptyString :: split r
      else match split r with
           | h :: t => String c h :: t
           | [] => [String c EmptyString]
           end
  end.

(** ["/".join(l)] *)
Definition join (l : list string) : string := String.concat "/" l.

(** [l[:-1]] *)
Definition all_but_last (l : list string) : list string := removelast l.

(** The position of the last slash, as the pair (text before it, text
    after it); [None] when [s] has no slash. *)
Fixpoint cut_last (s : string) : option (string * string) :=
  match s with
  | EmptyString => None
  | String c r =>
      match cut_last r with
      | Some (p, q) => Some (String c p, q)
      | None => if is_slash c then Some (EmptyString, r) else None
      end
  end.

(** [s.rsplit("/", 1)]: at most one split, taken from the right. *)
Definition rsplit1 (s : string) : list string :=
  match cut_last s with
  | Some (p, q) => [p; q]
  | None => [s]
  end.

(** [s] contains no slash. *)
Fixpoint no_slash (s : string) : bool :=
  match s with
  | EmptyString => true
  | String c r => negb (is_slash c) && no_slash r
  end.

(** [pat in s] for strings. *)
Fixpoint contains (pat s : string) : bool :=
  String.prefix pat s ||
  match s with
  | EmptyString => false
  | String _ r => contains pat r
  end.

End Str.

(** ** Module-level helpers *)

(** [ControllerInfo]-like record returned by the controller listing
    service; only the attributes the plugin reads. *)
Record ControllerInfo : Type := {
  name : string;
  type : string;
  state : string;
  required_state_interfaces : list string;
}.

(** [name = "/".join(interface.split("/")[:-1])] *)
Definition joint_of_interface (interface : string) : string :=
  Str.join (Str.all_but_last (Str.split interface)).

(** The loop of [_jtc_joint_names], with [joint_names] as the list
    being appended to. *)
Fixpoint jtc_joint_names_loop (interfaces joint_names : list string)
  : list string :=
  match interfaces with
  | [] => joint_names
  | interface :: rest =>
      let name := joint_of_interface interface in
      if bool_decide (name ∈ joint_names)
      then jtc_joint_names_loop rest joint_names
      else jtc_joint_names_loop rest (joint_names ++ [name])
  end.

Definition _jtc_joint_names (jtc_info : ControllerInfo) : list string :=
  jtc_joint_names_loop (required_state_interfaces jtc_info) [].

(** [_resolve_controller_ns(cm_ns, controller_name)] on two strings. *)
Definition _resolve_controller_ns (cm_ns controller_name : string)
  : result string :=
  if truthy controller_name then
    let ns := hd EmptyString (Str.rsplit1 cm_ns) in
    let ns := if bool_decide (ns ≠ "/") then ns +:+ "/" else ns in
    Ok (ns +:+ controller_name)
  else Raise AssertionError.


(** Modelled from the spec: [filter_by_type] of [utils.py], which is not
    part of the sources at hand. The controller poll of ControllerDiscovery
    "filters to those whose type string contains a configured marker
    substring"; with [match_substring] off the type has to be the marker
    itself. *)
Definition filter_by_type (controller_list : list ControllerInfo)
    (controller_type : string) (match_substring : bool)
  : list ControllerInfo :=
  List.filter
    (fun c => if match_substring
              then Str.contains controller_type (type c)
              else String.eqb (type c) controller_type)
    controller_list.

(** Modelled from the spec: [filter_by_state] of [utils.py], which is not
    part of the sources at hand: the controllers "whose state equals"
    the given one. *)
Definition filter_by_state (controller_list : list ControllerInfo)
    (controller_state : string) : list ControllerInfo :=
  List.filter (fun c => String.eqb (state c) controller_state)
    controller_list.

(** ** Floats: Python's [max], [/] and [abs] on binary64 *)

(** [max(a, b)]: the later argument wins only when it is strictly
    greater. *)
Definition pymax (a b : float) : float :=
  if PrimFloat.ltb a b then b else a.

(** [max(l)] on a list; [ValueError] on the empty list. *)
Definition pymax_list (l : list float) : result float :=
  match l with
  | [] => Raise ValueError
  | x :: r => Ok (fold_left pymax r x)
  end.

(** [a / b]: a zero divisor (of either sign) raises. *)
Definition pydiv (a b : float) : result float :=
  if PrimFloat.eqb b 0 then Raise ZeroDivisionError
  else Ok (PrimFloat.div a b).

(** ** The plugin's data *)

(** One entry of [_joint_pos]: a dict with at most the keys
    ["position"] and ["command"]. *)
Record JointRuntimeState : Type := {
  position : option float;
  command : option float;
}.

(** The freshly created [{}]. *)
Definition empty_entry : JointRuntimeState :=
  {| position := None; command := None |}.

(** The limits record the joint-limits lookup returns for a joint. *)
Record JointLimits : Type := {
  min_position : float;
  max_position : float;
  max_velocity : float;
}.

(** A row of the joint group's form layout: the label and the
    [DoubleEditor] built from the joint's position limits. *)
Record JointWidget : Type := {
  label : string;
  editor_min : float;
  editor_max : float;
  enabled : bool;
}.

(** [builtin_interfaces/Duration], the message [Duration.to_msg()]
    returns. *)
Record DurationMsg : Type := {
  sec : Z;
  nanosec : Z;
}.

Record JointTrajectoryPoint : Type := {
  positions : list float;
  time_from_start : DurationMsg;
}.

Record JointTrajectory : Type := {
  joint_names : list string;
  points : list JointTrajectoryPoint;
}.

(** The fields of [JointTrajectoryControllerState] the plugin reads:
    [msg.joint_names] and [msg.feedback.positions]. *)
Record ControllerState : Type := {
  msg_joint_names : list string;
  msg_feedback_positions : list float;
}.

(** The attributes of the plugin instance, the part of the widget tree it
    drives, and two traces of what it did to the outside: the messages
    handed to [_cmd_pub.publish] and the arguments of every
    [get_joint_limits] call. [_jtc_name] and [_cm_ns] start as the empty
    list [[]], which is [None] here. *)
Record Plugin : Type := mkPlugin {
  _jtc_name : option string;
  _cm_ns : option string;
  _joint_pos : gmap string JointRuntimeState;
  _joint_names : list string;
  _robot_joint_limits : gmap string JointLimits;
  _speed_scale : float;
  _update_cmd_timer : bool;
  _update_act_pos_timer : bool;
  enable_button : bool;
  speed_scaling_enabled : bool;
  joint_group : option (list JointWidget);
  jtc_combo : list string;
  _list_controllers : option string;
  _cmd_pub : option string;
  _state_sub : option string;
  _executor : bool;
  jointStateChanged : bool;
  published : list JointTrajectory;
  limit_lookups : list (list string);
}.

(** [_cmd_pub_freq] and [_min_traj_dur = 5.0 / _cmd_pub_freq] *)
Definition _cmd_pub_freq : float := 10%float.
Definition _min_traj_dur : float := PrimFloat.div 5 _cmd_pub_freq.

(** The state [__init__] leaves behind. [joint_layout] is the layout the
    UI file gives the joint group, if any, and [speed_scale] what
    [_on_speed_scaling_change] made of the speed scaling editor's first
    value. *)
Definition init (joint_layout : option (list JointWidget))
    (speed_scale : float) : Plugin :=
  {| _jtc_name := None; _cm_ns := None; _joint_pos := ∅;
     _joint_names := []; _robot_joint_limits := ∅;
     _speed_scale := speed_scale;
     _update_cmd_timer := false; _update_act_pos_timer := false;
     enable_button := false; speed_scaling_enabled := false;
     joint_group := joint_layout; jtc_combo := [];
     _list_controllers := None; _cmd_pub := None; _state_sub := None;
     _executor := false; jointStateChanged := false;
     published := []; limit_lookups := [] |}.

(** Attribute assignment, one function per attribute. *)

Definition set_jtc_name (v : option string) (s : Plugin) : Plugin :=
  mkPlugin v (_cm_ns s) (_joint_pos s) (_joint_names s)
    (_robot_joint_limits s) (_speed_scale s) (_update_cmd_timer s)
    (_update_act_pos_timer s) (enable_button s)
    (speed_scaling_enabled s) (joint_group s) (jtc_combo s)
    (_list_controllers s) (_cmd_pub s) (_state_sub s) (_executor s)
    (jointStateChanged s) (published s) (limit_lookups s).
Definition set_cm_ns (v : option string) (s : Plugin) : Plugin :=
  mkPlugin (_jtc_name s) v (_joint_pos s) (_joint_names s)
    (_robot_joint_limits s) (_speed_scale s) (_update_cmd_timer s)
    (_update_act_pos_timer s) (enable_button s)
    (speed_scaling_enabled s) (joint_group s) (jtc_combo s)
    (_list_controllers s) (_cmd_pub s) (_state_sub s) (_executor s)
    (jointStateChanged s) (published s) (limit_lookups s).
Definition set_joint_pos (v : gmap string JointRuntimeState) (s : Plugin) : Plugin :=
  mkPlugin (_jtc_name s) (_cm_ns s) v (_joint_names s)
    (_robot_joint_limits s) (_speed_scale s) (_update_cmd_timer s)
    (_update_act_pos_timer s) (enable_button s)
    (speed_scaling_enabled s) (joint_group s) (jtc_combo s)
    (_list_controllers s) (_cmd_pub s) (_state_sub s) (_executor s)
    (jointStateChanged s) (published s) (limit_lookups s).
Definition set_joint_names (v : list string) (s : Plugin) : Plugin :=
  mkPlugin (_jtc_name s) (_cm_ns s) (_joint_pos s) v
    (_robot_joint_limits s) (_speed_scale s) (_update_cmd_timer s)
    (_update_act_pos_timer s) (enable_button s)
    (speed_scaling_enabled s) (joint_group s) (jtc_combo s)
    (_list_controllers s) (_cmd_pub s) (_state_sub s) (_executor s)
    (jointStateChanged s) (published s) (limit_lookups s).
Definition set_robot_joint_limits (v : gmap string JointLimits) (s : Plugin) : Plugin :=
  mkPlugin (_jtc_name s) (_cm_ns s) (_joint_pos s) (_joint_names s) v
    (_speed_scale s) (_update_cmd_timer s) (_update_act_pos_timer s)
    (enable_button s) (speed_scaling_enabled s) (joint_group s)
    (jtc_combo s) (_list_controllers s) (_cmd_pub s) (_state_sub s)
    (_executor s) (jointStateChanged s) (published s) (limit_lookups s).
Definition set_speed_scale (v : float) (s : Plugin) : Plugin :=
  mkPlugin (_jtc_name s) (_cm_ns s) (_joint_pos s) (_joint_names s)
    (_robot_joint_limits s) v (_update_cmd_timer s)
    (_update_act_pos_timer s) (enable_button s)
    (speed_scaling_enabled s) (joint_group s) (jtc_combo s)
    (_list_controllers s) (_cmd_pub s) (_state_sub s) (_executor s)
    (jointStateChanged s) (published s) (limit_lookups s).
Definition set_update_cmd_timer (v : bool) (s : Plugin) : Plugin :=
  mkPlugin (_jtc_name s) (_cm_ns s) (_joint_pos s) (_joint_names s)
    (_robot_joint_limits s) (_speed_scale s) v
    (_update_act_pos_timer s) (enable_button s)
    (speed_scaling_enabled s) (joint_group s) (jtc_combo s)
    (_list_controllers s) (_cmd_pub s) (_state_sub s) (_executor s)
    (jointStateChanged s) (published s) (limit_lookups s).
Definition set_update_act_pos_timer (v : bool) (s : Plugin) : Plugin :=
  mkPlugin (_jtc_name s) (_cm_ns s) (_joint_pos s) (_joint_names s)
    (_robot_joint_limits s) (_speed_scale s) (_update_cmd_timer s) v
    (enable_button s) (speed_scaling_enabled s) (joint_group s)
    (jtc_combo s) (_list_controllers s) (_cmd_pub s) (_state_sub s)
    (_executor s) (jointStateChanged s) (published s) (limit_lookups s).
Definition set_enable_button (v : bool) (s : Plugin) : Plugin :=
  mkPlugin (_jtc_name s) (_cm_ns s) (_joint_pos s) (_joint_names s)
    (_robot_joint_limits s) (_speed_scale s) (_update_cmd_timer s)
    (_update_act_pos_timer s) v (speed_scaling_enabled s)
    (joint_group s) (jtc_combo s) (_list_controllers s) (_cmd_pub s)
    (_state_sub s) (_executor s) (jointStateChanged s) (published s)
    (limit_lookups s).
Definition set_speed_scaling_enabled (v : bool) (s : Plugin) : Plugin :=
  mkPlugin (_jtc_name s) (_cm_ns s) (_joint_pos s) (_joint_names s)
    (_robot_joint_limits s) (_speed_scale s) (_update_cmd_timer s)
    (_update_act_pos_timer s) (enable_button s) v (joint_group s)
    (jtc_combo s) (_list_controllers s) (_cmd_pub s) (_state_sub s)
    (_executor s) (jointStateChanged s) (published s) (limit_lookups s).
Definition set_joint_group (v : option (list JointWidget)) (s : Plugin) : Plugin :=
  mkPlugin (_jtc_name s) (_cm_ns s) (_joint_pos s) (_joint_names s)
    (_robot_joint_limits s) (_speed_scale s) (_update_cmd_timer s)
    (_update_act_pos_timer s) (enable_button s)
    (speed_scaling_enabled s) v (jtc_combo s) (_list_controllers s)
    (_cmd_pub s) (_state_sub s) (_executor s) (jointStateChanged s)
    (published s) (limit_lookups s).
Definition set_jtc_combo (v : list string) (s : Plugin) : Plugin :=
  mkPlugin (_jtc_name s) (_cm_ns s) (_joint_pos s) (_joint_names s)
    (_robot_joint_limits s) (_speed_scale s) (_update_cmd_timer s)
    (_update_act_pos_timer s) (enable_button s)
    (speed_scaling_enabled s) (joint_group s) v (_list_controllers s)
    (_cmd_pub s) (_state_sub s) (_executor s) (jointStateChanged s)
    (published s) (limit_lookups s).
Definition set_list_controllers (v : option string) (s : Plugin) : Plugin :=
  mkPlugin (_jtc_name s) (_cm_ns s) (_joint_pos s) (_joint_names s)
    (_robot_joint_limits s) (_speed_scale s) (_update_cmd_timer s)
    (_update_act_pos_timer s) (enable_button s)
    (speed_scaling_enabled s) (joint_group s) (jtc_combo s) v
    (_cmd_pub s) (_state_sub s) (_executor s) (jointStateChanged s)
    (published s) (limit_lookups s).
Definition set_cmd_pub (v : option string) (s : Plugin) : Plugin :=
  mkPlugin (_jtc_name s) (_cm_ns s) (_joint_pos s) (_joint_names s)
    (_robot_joint_limits s) (_speed_scale s) (_update_cmd_timer s)
    (_update_act_pos_timer s) (enable_button s)
    (speed_scaling_enabled s) (joint_group s) (jtc_combo s)
    (_list_controllers s) v (_state_sub s) (_executor s)
    (jointStateChanged s) (published s) (limit_lookups s).
Definition set_state_sub (v : option string) (s : Plugin) : Plugin :=
  mkPlugin (_jtc_name s) (_cm_ns s) (_joint_pos s) (_joint_names s)
    (_robot_joint_limits s) (_speed_scale s) (_update_cmd_timer s)
    (_update_act_pos_timer s) (enable_button s)
    (speed_scaling_enabled s) (joint_group s) (jtc_combo s)
    (_list_controllers s) (_cmd_pub s) v (_executor s)
    (jointStateChanged s) (published s) (limit_lookups s).
Definition set_executor (v : bool) (s : Plugin) : Plugin :=
  mkPlugin (_jtc_name s) (_cm_ns s) (_joint_pos s) (_joint_names s)
    (_robot_joint_limits s) (_speed_scale s) (_update_cmd_timer s)
    (_update_act_pos_timer s) (enable_button s)
    (speed_scaling_enabled s) (joint_group s) (jtc_combo s)
    (_list_controllers s) (_cmd_pub s) (_state_sub s) v
    (jointStateChanged s) (published s) (limit_lookups s).
Definition set_jointStateChanged (v : bool) (s : Plugin) : Plugin :=
  mkPlugin (_jtc_name s) (_cm_ns s) (_joint_pos s) (_joint_names s)
    (_robot_joint_limits s) (_speed_scale s) (_update_cmd_timer s)
    (_update_act_pos_timer s) (enable_button s)
    (speed_scaling_enabled s) (joint_group s) (jtc_combo s)
    (_list_controllers s) (_cmd_pub s) (_state_sub s) (_executor s) v
    (published s) (limit_lookups s).
Definition set_published (v : list JointTrajectory) (s : Plugin) : Plugin :=
  mkPlugin (_jtc_name s) (_cm_ns s) (_joint_pos s) (_joint_names s)
    (_robot_joint_limits s) (_speed_scale s) (_update_cmd_timer s)
    (_update_act_pos_timer s) (enable_button s)
    (speed_scaling_enabled s) (joint_group s) (jtc_combo s)
    (_list_controllers s) (_cmd_pub s) (_state_sub s) (_executor s)
    (jointStateChanged s) v (limit_lookups s).
Definition set_limit_lookups (v : list (list string)) (s : Plugin) : Plugin :=
  mkPlugin (_jtc_name s) (_cm_ns s) (_joint_pos s) (_joint_names s)
    (_robot_joint_limits s) (_speed_scale s) (_update_cmd_timer s)
    (_update_act_pos_timer s) (enable_button s)
    (speed_scaling_enabled s) (joint_group s) (jtc_combo s)
    (_list_controllers s) (_cmd_pub s) (_state_sub s) (_executor s)
    (jointStateChanged s) (published s) v.

(** ** Methods as computations over the attributes

    A method either returns or raises, and in both cases leaves the
    attributes as it changed them up to that point. *)

Definition M (A : Type) : Type := Plugin -> result A * Plugin.

Definition ret {A} (a : A) : M A := fun s => (Ok a, s).
Definition raise {A} (e : exn) : M A := fun s => (Raise e, s).
Definition bind {A B} (m : M A) (k : A -> M B) : M B :=
  fun s =>
    match m s with
    | (Ok a, s') => k a s'
    | (Raise e, s') => (Raise e, s')
    end.
Definition get : M Plugin := fun s => (Ok s, s).
Definition modify (f : Plugin -> Plugin) : M unit := fun s => (Ok tt, f s).
Definition lift {A} (r : result A) : M A := fun s => (r, s).

(** [try: m / except Exception: pass] *)
Definition try_except {A} (m : M A) : M unit :=
  fun s => (Ok tt, snd (m s)).

#[global] Instance M_ret : MRet M := @ret.
#[global] Instance M_bind : MBind M := fun A B k m => bind m k.

(** [for x in l: body] *)
Fixpoint for_each {A} (l : list A) (body : A -> M unit) : M unit :=
  match l with
  | [] => ret tt
  | x :: rest => body x ;; for_each rest body
  end.

(** [for x in l: body], the body threading local variables [acc]. *)
Fixpoint for_fold {A B} (l : list A) (acc : B) (body : B -> A -> M B)
  : M B :=
  match l with
  | [] => ret acc
  | x :: rest => acc' ← body acc x; for_fold rest acc' body
  end.

(** Truth value of [_jtc_name] and [_cm_ns]: the empty list and the
    empty string are falsy. *)
Definition truthy_attr (v : option string) : bool :=
  match v with Some n => truthy n | None => false end.

Section Methods.

(** What the outside answers during one callback: the reply of the
    controller listing service to [self._list_controllers()],
    [get_joint_limits(self._node, ·)] of [joint_limits_urdf.py], and
    [rclpy.duration.Duration(seconds=·).to_msg()], which returns a
    message for a number of seconds or raises. *)
Variable snapshot : list ControllerInfo.
Variable get_joint_limits : list string -> gmap string JointLimits.
Variable Duration_to_msg : float -> result DurationMsg.

Definition _unregister_cmd_pub : M unit :=
  s ← get;
  if bool_decide (_cmd_pub s ≠ None) then modify (set_cmd_pub None)
  else ret tt.

Definition _unregister_state_sub : M unit :=
  s ← get;
  if bool_decide (_state_sub s ≠ None) then modify (set_state_sub None)
  else ret tt.

Definition _unregister_executor : M unit :=
  s ← get;
  if _executor s then modify (set_executor false) else ret tt.

Definition _running_jtc_info : M (list ControllerInfo) :=
  s ← get;
  match _list_controllers s with
  | None => raise TypeError
  | Some _ =>
      let controller_list := snapshot in
      let jtc_list :=
        filter_by_type controller_list "JointTrajectoryController" true in
      let running_jtc_list := filter_by_state jtc_list "active" in
      ret running_jtc_list
  end.

(** [self._joint_widgets()]: the field widgets of the rows of the joint
    group's layout; without a layout, [layout.rowCount()] raises. *)
Definition _joint_widgets : M (list JointWidget) :=
  s ← get;
  match joint_group s with
  | None => raise AttributeError
  | Some rows => ret rows
  end.

Definition setEnabled (val : bool) (w : JointWidget) : JointWidget :=
  {| label := label w; editor_min := editor_min w;
     editor_max := editor_max w; enabled := val |}.

(** [enable_button.setChecked(val)] of Qt's abstract button: nothing
    happens when the button is already in that state; otherwise the
    state changes and [toggled(val)] runs the connected slot. *)
Definition setChecked (toggled : bool -> M unit) (val : bool) : M unit :=
  s ← get;
  if Bool.eqb (enable_button s) val then ret tt
  else modify (set_enable_button val) ;; toggled val.

(** [_on_jtc_enabled], the slot of [enable_button.toggled]. Its first
    branch unchecks the button, which may run the slot again; [fuel]
    bounds that nesting. *)
Fixpoint on_jtc_enabled_fuel (fuel : nat) (val : bool) : M unit :=
  match fuel with
  | O => raise RecursionError
  | S fuel' =>
      s ← get;
      if negb (truthy_attr (_jtc_name s)) then
        setChecked (on_jtc_enabled_fuel fuel') false
      else
        widgets ← _joint_widgets;
        modify (set_joint_group (Some (map (setEnabled val) widgets))) ;;
        modify (set_speed_scaling_enabled val) ;;
        if val then
          modify (set_update_act_pos_timer false) ;;
          modify (set_update_cmd_timer true)
        else
          modify (set_update_cmd_timer false) ;;
          modify (set_update_act_pos_timer true)
  end.

(** Two levels are all the nesting there is (see [on_jtc_enabled_total]
    below). *)
Definition _on_jtc_enabled (val : bool) : M unit :=
  on_jtc_enabled_fuel 2 val.

(** The user clicking the enable button into state [val]. *)
Definition user_toggle (val : bool) : M unit :=
  setChecked _on_jtc_enabled val.

(** [_unload_jtc] *)
Definition _unload_jtc : M unit :=
  (* Stop updating the joint positions *)
  try_except (modify (set_jointStateChanged false)) ;;
  (* Reset ROS interfaces *)
  _unregister_state_sub ;;
  _unregister_cmd_pub ;;
  _unregister_executor ;;
  (* Clear joint widgets: whatever layout there was is emptied and
     replaced by a fresh form layout *)
  modify (set_joint_group (Some [])) ;;
  (* Reset joint data *)
  modify (set_joint_names []) ;;
  modify (set_joint_pos ∅) ;;
  (* Enforce monitor mode (sending commands disabled) *)
  setChecked _on_jtc_enabled false.

(** [layout.addRow(name, joint_widget)] *)
Definition addRow (w : JointWidget) : M unit :=
  s ← get;
  match joint_group s with
  | None => raise AttributeError
  | Some rows => modify (set_joint_group (Some (rows ++ [w])))
  end.

(** [x.name == self._jtc_name] *)
Definition is_selected (s : Plugin) (x : ControllerInfo) : bool :=
  match _jtc_name s with
  | Some n => String.eqb (name x) n
  | None => false
  end.

(** [self._joint_pos[name] = {}] *)
Definition init_entry (name : string) : M unit :=
  s ← get;
  modify (set_joint_pos (<[name := empty_entry]> (_joint_pos s))).

(** The row of one joint: its limits are looked up, an editor ranging
    over its position limits is made and added to the layout. *)
Definition add_joint_row (name : string) : M unit :=
  s ← get;
  match _robot_joint_limits s !! name with
  | None => raise (KeyError name)
  | Some limits =>
      addRow {| label := name; editor_min := min_position limits;
                editor_max := max_position limits; enabled := true |}
  end.

(** [_load_jtc], first part: "Initialize joint data corresponding to
    selected controller". [next] over the generator raises
    [StopIteration] when no running controller has the selected name. *)
Definition load_joint_data : M unit :=
  running_jtc ← _running_jtc_info;
  s ← get;
  match List.find (is_selected s) running_jtc with
  | None => raise StopIteration
  | Some x => modify (set_joint_names (_jtc_joint_names x))
  end ;;
  s ← get;
  for_each (_joint_names s) init_entry.

(** [_load_jtc], second part: "Update joint display", with whatever it
    raises swallowed. *)
Definition update_joint_display : M unit :=
  try_except (s ← get; for_each (_joint_names s) add_joint_row).

(** [_load_jtc], last part: "Setup ROS interfaces". The namespace is
    resolved from [_cm_ns], which has no [rsplit] while it still is the
    initial empty list. *)
Definition setup_ros_interfaces : M unit :=
  s ← get;
  jtc_ns ← match _jtc_name s, _cm_ns s with
           | Some jtc_name, Some cm_ns =>
               lift (_resolve_controller_ns cm_ns jtc_name)
           | Some jtc_name, None =>
               if truthy jtc_name then raise AttributeError
               else raise AssertionError
           | None, _ => raise AssertionError
           end;
  let state_topic := jtc_ns +:+ "/controller_state" in
  let cmd_topic := jtc_ns +:+ "/joint_trajectory" in
  modify (set_state_sub (Some state_topic)) ;;
  modify (set_cmd_pub (Some cmd_topic)) ;;
  modify (set_jointStateChanged true) ;;
  modify (set_executor true).

(** [_load_jtc] *)
Definition _load_jtc : M unit :=
  (* Initialize joint data corresponding to selected controller *)
  load_joint_data ;;
  (* Update joint display *)
  update_joint_display ;;
  (* Enter monitor mode (sending commands disabled) *)
  _on_jtc_enabled false ;;
  (* Setup ROS interfaces *)
  setup_ros_interfaces.

(** [_on_jtc_change], the slot of [jtc_combo.currentIndexChanged]. *)
Definition _on_jtc_change (jtc_name : string) : M unit :=
  _unload_jtc ;;
  modify (set_jtc_name (Some jtc_name)) ;;
  s ← get;
  if truthy_attr (_jtc_name s) then _load_jtc else ret tt.

(** [sorted] on a list of strings. *)
Definition str_le (a b : string) : Prop := String.leb a b = true.
#[global] Instance str_le_dec a b : Decision (str_le a b).
Proof. unfold str_le. apply _. Defined.
Definition sorted (l : list string) : list string := merge_sort str_le l.

(** [name in self._robot_joint_limits] for every joint of a controller. *)
Definition has_limits (limits : gmap string JointLimits)
    (jtc_info : ControllerInfo) : bool :=
  forallb (fun name => bool_decide (is_Some (limits !! name)))
    (_jtc_joint_names jtc_info).

(** The body of the loop that fills [_robot_joint_limits]:
    [self._robot_joint_limits.update(get_joint_limits(self._node,
    _jtc_joint_names(jtc_info)))], leaving the joint names asked for in
    the trace [limit_lookups]. *)
Definition fetch_limits (jtc_info : ControllerInfo) : M unit :=
  s ← get;
  let asked := _jtc_joint_names jtc_info in
  modify (set_limit_lookups (limit_lookups s ++ [asked])) ;;
  modify (set_robot_joint_limits
            (get_joint_limits asked ∪ _robot_joint_limits s)).

(** [_update_jtc_list]. The items handed to [update_combo] are what the
    controller combo box [jtc_combo] holds afterwards; a selection
    change the combo box signals on [clear] or [update_combo] is the
    event [JtcChange] below, not part of this method. *)
Definition _update_jtc_list : M unit :=
  s ← get;
  (* Clear controller list if no controller information is available *)
  if bool_decide (_list_controllers s = None) then
    modify (set_jtc_combo [])
  else
    (* List of running controllers with a valid joint limits
       specification for _all_ their joints *)
    running_jtc ← _running_jtc_info;
    s ← get;
    (if negb (bool_decide (running_jtc = []))
        && bool_decide (size (_robot_joint_limits s) = 0)
     then
       modify (set_robot_joint_limits ∅) ;;
       for_each running_jtc fetch_limits
     else ret tt) ;;
    s ← get;
    let valid_jtc :=
      if negb (bool_decide (size (_robot_joint_limits s) = 0))
      then List.filter (has_limits (_robot_joint_limits s)) running_jtc
      else [] in
    let valid_jtc_names := map name valid_jtc in
    (* Update widget *)
    modify (set_jtc_combo (sorted valid_jtc_names)).

(** [_on_speed_scaling_change], with the slider's maximum. *)
Definition _on_speed_scaling_change (val slider_maximum : float)
  : M unit :=
  q ← lift (pydiv val slider_maximum);
  modify (set_speed_scale q).

(** [_on_cm_change], the slot of [cm_combo.currentIndexChanged]. *)
Definition _on_cm_change (cm_ns : string) : M unit :=
  modify (set_cm_ns (Some cm_ns)) ;;
  if truthy cm_ns then
    modify (set_list_controllers (Some cm_ns)) ;;
    modify (set_jtc_combo []) ;;
    _update_jtc_list
  else
    modify (set_list_controllers None).

(** A dict of positions keyed by joint name, in insertion order. *)
Fixpoint dict_set (d : list (string * float)) (k : string) (v : float)
  : list (string * float) :=
  match d with
  | [] => [(k, v)]
  | (k', v') :: rest =>
      if String.eqb k' k then (k', v) :: rest
      else (k', v') :: dict_set rest k v
  end.

Fixpoint dict_get (d : list (string * float)) (k : string)
  : result float :=
  match d with
  | [] => Raise (KeyError k)
  | (k', v') :: rest => if String.eqb k' k then Ok v' else dict_get rest k
  end.

(** [l[i]] *)
Definition index {A} (l : list A) (i : nat) : M A :=
  match l !! i with
  | Some x => ret x
  | None => raise IndexError
  end.

(** The body of the loop of [_on_joint_state_change]:
    [self._joint_pos[name]["position"] = current_pos[name]] *)
Definition store_position (current_pos : list (string * float))
    (name : string) : M unit :=
  v ← lift (dict_get current_pos name);
  s ← get;
  match _joint_pos s !! name with
  | None => raise (KeyError name)
  | Some entry =>
      modify (set_joint_pos
                (<[name := {| position := Some v;
                              command := command entry |}]>
                   (_joint_pos s)))
  end.

(** [_on_joint_state_change], the slot of [jointStateChanged]. *)
Definition _on_joint_state_change (current_pos : list (string * float))
  : M unit :=
  s ← get;
  if bool_decide (length current_pos = size (_joint_pos s)) then
    for_each (map fst current_pos) (store_position current_pos)
  else raise AssertionError.

(** [self.jointStateChanged.emit(current_pos)]: the connected slot
    runs, and what it has written stays; an exception it raises is
    Qt's to deal with and does not come back to the emitter. *)
Definition emit_jointStateChanged (current_pos : list (string * float))
  : M unit :=
  s ← get;
  if jointStateChanged s then
    try_except (_on_joint_state_change current_pos)
  else ret tt.

(** The body of the loop of [_state_cb] for index [i], with the dict
    [current_pos] built so far. *)
Definition state_cb_body (msg : ControllerState)
    (current_pos : list (string * float)) (i : nat)
  : M (list (string * float)) :=
  joint_name ← index (msg_joint_names msg) i;
  joint_pos ← index (msg_feedback_positions msg) i;
  ret (dict_set current_pos joint_name joint_pos).

(** [_state_cb], the callback of the feedback subscription. *)
Definition _state_cb (msg : ControllerState) : M unit :=
  current_pos ←
    for_fold (seq 0 (length (msg_joint_names msg))) [] (state_cb_body msg);
  emit_jointStateChanged current_pos.

(** [_update_single_cmd_cb], the slot of a joint editor. *)
Definition _update_single_cmd_cb (val : float) (name : string) : M unit :=
  s ← get;
  match _joint_pos s !! name with
  | None => raise (KeyError name)
  | Some entry =>
      modify (set_joint_pos
                (<[name := {| position := position entry;
                              command := Some val |}]> (_joint_pos s)))
  end.

(** One pass of the loop of [_update_cmd_cb] for joint [name], with the
    lists [dur] and [point.positions] built so far. *)
Definition update_cmd_body (acc : list float * list float)
    (name : string) : M (list float * list float) :=
  s ← get;
  entry ← match _joint_pos s !! name with
          | Some entry => ret entry
          | None => raise (KeyError name)
          end;
  pos ← match position entry with
        | Some pos => ret pos
        | None => raise (KeyError "position")
        end;
  let cmd := match command entry with Some c => c | None => pos end in
  limits ← match _robot_joint_limits s !! name with
           | Some limits => ret limits
           | None => raise (KeyError name)
           end;
  let max_vel := max_velocity limits in
  d ← lift (pydiv (PrimFloat.abs (PrimFloat.sub cmd pos)) max_vel);
  ret (acc.1 ++ [pymax d _min_traj_dur], acc.2 ++ [cmd]).

(** [_update_cmd_cb], the callback of the command timer. *)
Definition _update_cmd_cb : M unit :=
  s ← get;
  let traj_joint_names := _joint_names s in
  acc ← for_fold traj_joint_names ([], []) update_cmd_body;
  longest ← lift (pymax_list acc.1);
  seconds ← lift (pydiv longest (_speed_scale s));
  duration ← lift (Duration_to_msg seconds);
  let point := {| positions := acc.2; time_from_start := duration |} in
  let traj := {| joint_names := traj_joint_names; points := [point] |} in
  match _cmd_pub s with
  | None => raise AttributeError
  | Some _ => modify (set_published (published s ++ [traj]))
  end.

End Methods.

(** ** Events

    What reaches the plugin from the outside, each with the answers the
    outside gives while the callback runs. The combo boxes are driven by
    [update_combo], by [clear] and by the user; the selection changes
    they signal, also those a callback sets off by clearing or refilling
    a combo box, are events of their own ([JtcChange], [CmChange]), in
    whatever order they come: a callback below stands for the method's
    own statements, not for the slots a signal runs after them. A
    callback that raises leaves the attributes as they are at that
    point, and the next event finds them so. *)

Inductive event : Type :=
| Toggle (val : bool)
| JtcChange (jtc_name : string) (snapshot : list ControllerInfo)
| CmChange (cm_ns : string) (snapshot : list ControllerInfo)
    (get_joint_limits : list string -> gmap string JointLimits)
| JtcListTimer (snapshot : list ControllerInfo)
    (get_joint_limits : list string -> gmap string JointLimits)
| SpeedScaling (val slider_maximum : float)
| StateMsg (msg : ControllerState)
| EditJoint (val : float) (name : string)
| CmdTimer (Duration_to_msg : float -> result DurationMsg).

Definition handle (e : event) : M unit :=
  match e with
  | Toggle val => user_toggle val
  | JtcChange jtc_name snapshot => _on_jtc_change snapshot jtc_name
  | CmChange cm_ns snapshot get_joint_limits =>
      _on_cm_change snapshot get_joint_limits cm_ns
  | JtcListTimer snapshot get_joint_limits =>
      _update_jtc_list snapshot get_joint_limits
  | SpeedScaling val slider_maximum =>
      _on_speed_scaling_change val slider_maximum
  | StateMsg msg => _state_cb msg
  | EditJoint val name => _update_single_cmd_cb val name
  | CmdTimer Duration_to_msg => _update_cmd_cb Duration_to_msg
  end.

Definition step (s : Plugin) (e : event) : Plugin := snd (handle e s).

Definition run (events : list event) (s : Plugin) : Plugin :=
  fold_left step events s.

(** The four events of the mode state machine: enabling and disabling
    are the two clicks, binding is the selection of a controller name
    and unbinding the selection of no controller. *)
Definition is_mode_event (e : event) : bool :=
  match e with
  | Toggle _ | JtcChange _ _ => true
  | _ => false
  end.

(** A session is bound while its command publisher exists; a controller
    is selected while [_jtc_name] is truthy. *)
Definition bound (s : Plugin) : bool := bool_decide (_cmd_pub s ≠ None).
Definition selected (s : Plugin) : bool := truthy_attr (_jtc_name s).


(** ** The reading of the two helpers by slash-separated segments *)

(** Keep the first occurrence of every element, in order. *)
Fixpoint dedup_first (l : list string) : list string :=
  match l with
  | [] => []
  | x :: rest => x :: filter (λ y, y ≠ x) (dedup_first rest)
  end.


(** ** Notions used in the statements *)

(** A computation leaves the view [f] of the attributes alone. *)
Definition preserves {X A} (f : Plugin → X) (m : M A) : Prop :=
  ∀ s, f (m s).2 = f s.

(** What the update makes of one entry: the position becomes the
    reported one, the command stays. *)
Definition updated_entry (current_pos : list (string * float))
    (name : string) (entry : JointRuntimeState) : JointRuntimeState :=
  match dict_get current_pos name with
  | Ok v => {| position := Some v; command := command entry |}
  | Raise _ => entry
  end.

(** The dict [_state_cb] builds from the two arrays of a report, starting
    from [current_pos]; [positions[i]] raises once the positions run
    out. *)
Fixpoint zip_positions (names : list string) (positions : list float)
    (current_pos : list (string * float))
  : result (list (string * float)) :=
  match names with
  | [] => Ok current_pos
  | n :: names' =>
      match positions with
      | [] => Raise IndexError
      | p :: positions' => zip_positions names' positions' (dict_set current_pos n p)
      end
  end.

(** ** Sample data for the concrete runs below *)

(** A running trajectory controller with two joints. *)
Definition arm : ControllerInfo :=
  {| name := "arm";
     type := "joint_trajectory_controller/JointTrajectoryController";
     state := "active";
     required_state_interfaces :=
       ["j1/position"; "j1/velocity"; "j2/position"] |}.

(** A robot description that gives every joint asked for the limits
    [-1 .. 1] and the velocity limit 2. *)
Definition urdf_limits (asked : list string) : gmap string JointLimits :=
  list_to_map
    (map (λ n, (n, {| min_position := (-1)%float; max_position := 1%float;
                      max_velocity := 2%float |})) asked).

(** No robot description received yet. *)
Definition no_limits (asked : list string) : gmap string JointLimits := ∅.

(** The plugin after the controller manager was chosen and [arm] bound:
    monitor mode, no feedback yet. *)
Definition monitoring : Plugin :=
  run [CmChange "/controller_manager" [arm] urdf_limits;
       JtcChange "arm" [arm]]
    (init None 1%float).

(** ** Command synthesis, as the specification words it *)

(** The position and the command of a joint in the runtime-state table,
    if it has them. *)
Definition joint_position (s : Plugin) (name : string) : option float :=
  _joint_pos s !! name ≫= position.

Definition joint_command (s : Plugin) (name : string) : option float :=
  _joint_pos s !! name ≫= command.

(** The position sent for a joint: its command if one has been set and
    otherwise its current position. *)
Definition target (s : Plugin) (name : string) : float :=
  default (default 0%float (joint_position s name)) (joint_command s name).

Definition joint_max_velocity (s : Plugin) (name : string) : float :=
  default 0%float (max_velocity <$> _robot_joint_limits s !! name).

(** [max(|cmd - position| / max_velocity, 5 / command_rate)] *)
Definition joint_duration (s : Plugin) (name : string) : float :=
  pymax
    (PrimFloat.div
       (PrimFloat.abs
          (PrimFloat.sub (target s name)
             (default 0%float (joint_position s name))))
       (joint_max_velocity s name))
    (PrimFloat.div 5 _cmd_pub_freq).

(** The maximum of a list of durations, taken with Python's [max]. *)
Definition max_over (l : list float) : float :=
  match l with
  | [] => 0%float
  | x :: rest => fold_left pymax rest x
  end.

(** The maximum over the joints, divided by the speed scale. *)
Definition trajectory_duration (s : Plugin) : float :=
  PrimFloat.div (max_over (map (joint_duration s) (_joint_names s)))
    (_speed_scale s).

(** The one message of a synthesis cycle, with the message [duration]
    made of [trajectory_duration]. *)
Definition synthesized (duration : DurationMsg) (s : Plugin)
  : JointTrajectory :=
  {| joint_names := _joint_names s;
     points := [{| positions := map (target s) (_joint_names s);
                   time_from_start := duration |}] |}.

(** Python's [int] of a [float]: truncation towards zero. *)
Definition py_int (x : float) : result Z :=
  match Prim2SF x with
  | SpecFloat.S754_zero _ => Ok 0%Z
  | SpecFloat.S754_infinity _ => Raise OverflowError
  | SpecFloat.S754_nan => Raise ValueError
  | SpecFloat.S754_finite negative m e =>
      let magnitude :=
        if (0 <=? e)%Z then Z.shiftl (Z.pos m) e
        else Z.shiftr (Z.pos m) (- e) in
      Ok (if negative then (- magnitude)%Z else magnitude)
  end.

(** A conversion for the concrete runs below, after rclpy's [Duration]:
    [int(seconds * 10**9)] nanoseconds, which have to fit a signed
    64-bit integer, split by [divmod] into seconds and nanoseconds. *)
Definition rclpy_duration (seconds : float) : result DurationMsg :=
  match py_int (PrimFloat.mul seconds 1000000000) with
  | Raise e => Raise e
  | Ok total_nanoseconds =>
      if bool_decide (- 2 ^ 63 ≤ total_nanoseconds < 2 ^ 63)%Z then
        Ok {| sec := (total_nanoseconds `div` 1000000000)%Z;
              nanosec := (total_nanoseconds `mod` 1000000000)%Z |}
      else Raise OverflowError
  end.

(** A joint the synthesis can handle: its position is known and it has
    limits with a velocity limit other than zero. *)
Definition ready (s : Plugin) (name : string) : Prop :=
  is_Some (joint_position s name)
  ∧ ∃ limits, _robot_joint_limits s !! name = Some limits
              ∧ PrimFloat.eqb (max_velocity limits) 0 = false.

(** A running trajectory controller with the joints named by
    [interfaces]. *)
Definition wrist (interfaces : list string) : ControllerInfo :=
  {| name := "wrist";
     type := "position_controllers/JointTrajectoryController";
     state := "active";
     required_state_interfaces := interfaces |}.

(** A robot description whose joints cannot move: velocity limit 0. *)
Definition stiff_limits (asked : list string) : gmap string JointLimits :=
  list_to_map
    (map (λ n, (n, {| min_position := (-1)%float; max_position := 1%float;
                      max_velocity := 0%float |})) asked).

(** Control mode on the one-joint controller [wrist]: the joint was
    reported at 0.0, the user asked for 1.0, and its velocity limit
    is 2.0. *)
Definition commanding (speed_scale : float) : Plugin :=
  run [CmChange "/controller_manager" [wrist ["j1/position"]] urdf_limits;
       JtcChange "wrist" [wrist ["j1/position"]];
       StateMsg {| msg_joint_names := ["j1"];
                   msg_feedback_positions := [0%float] |};
       EditJoint 1%float "j1";
       Toggle true]
    (init None speed_scale).

(** Control mode on [wrist] after a report whose position is not a
    number. *)
Definition astray : Plugin :=
  run [CmChange "/controller_manager" [wrist ["j1/position"]] urdf_limits;
       JtcChange "wrist" [wrist ["j1/position"]];
       StateMsg {| msg_joint_names := ["j1"];
                   msg_feedback_positions := [PrimFloat.nan] |};
       Toggle true]
    (init None 1%float).

(** Control mode on [wrist] when the controller shows a second joint,
    [j3], only at the time it is bound: the limits were looked up for
    [j1] alone. Both joints have been reported. *)
Definition degraded : Plugin :=
  run [CmChange "/controller_manager" [wrist ["j1/position"]] urdf_limits;
       JtcChange "wrist" [wrist ["j1/position"; "j3/position"]];
       StateMsg {| msg_joint_names := ["j1"; "j3"];
                   msg_feedback_positions := [0%float; 0%float] |};
       Toggle true]
    (init None 1%float).

(** Control mode on a running controller without any state interface,
    listed next to [arm]. *)
Definition jointless : Plugin :=
  run [CmChange "/controller_manager" [arm; wrist []] urdf_limits;
       JtcChange "wrist" [arm; wrist []];
       Toggle true]
    (init None 1%float).

(** Control mode on [wrist] with a velocity limit of zero. *)
Definition stiff : Plugin :=
  run [CmChange "/controller_manager" [wrist ["j1/position"]] stiff_limits;
       JtcChange "wrist" [wrist ["j1/position"]];
       StateMsg {| msg_joint_names := ["j1"];
                   msg_feedback_positions := [0%float] |};
       Toggle true]
    (init None 1%float).

(** ** Controller discovery, as the specification words it *)

(** The controllers whose type contains the marker substring and whose
    state equals ["active"]. *)
Definition running_controllers (snapshot : list ControllerInfo)
  : list ControllerInfo :=
  List.filter
    (λ c, Str.contains "JointTrajectoryController" (type c)
          && String.eqb (state c) "active")
    snapshot.

(** The running controllers all of whose joints have an entry in the
    cache [limits]; none while the cache is empty. *)
Definition valid_controllers (limits : gmap string JointLimits)
    (snapshot : list ControllerInfo) : list ControllerInfo :=
  if bool_decide (size limits = 0) then []
  else List.filter (has_limits limits) (running_controllers snapshot).

(** The cache after the lookups for the controllers [l], one by one. *)
Definition primed (get_joint_limits : list string → gmap string JointLimits)
    (l : list ControllerInfo) (limits : gmap string JointLimits)
  : gmap string JointLimits :=
  fold_left (λ m c, get_joint_limits (_jtc_joint_names c) ∪ m) l limits.

(** The attributes after a discovery cycle that had controller
    information: the cache is filled when it was empty and controllers
    are running, and the combo box gets the sorted names of the valid
    controllers. *)
Definition discovered
    (get_joint_limits : list string → gmap string JointLimits)
    (snapshot : list ControllerInfo) (s : Plugin) : Plugin :=
  let running := running_controllers snapshot in
  let s1 :=
    if negb (bool_decide (running = []))
       && bool_decide (size (_robot_joint_limits s) = 0)
    then set_robot_joint_limits (primed get_joint_limits running ∅)
           (set_limit_lookups
              (limit_lookups s ++ map _jtc_joint_names running) s)
    else s in
  set_jtc_combo
    (sorted (map name (valid_controllers (_robot_joint_limits s1) snapshot)))
    s1.

(** The plugin after the controller manager was chosen while it had no
    controllers: controller information is available, the cache is
    empty. *)
Definition waiting : Plugin :=
  run [CmChange "/controller_manager" [] no_limits] (init None 1%float).

(** A controller of another family, and one that is not active. *)
Definition gripper : ControllerInfo :=
  {| name := "gripper"; type := "position_controllers/GripperActionController";
     state := "active"; required_state_interfaces := ["g1/position"] |}.

Definition spare : ControllerInfo :=
  {| name := "a_spare";
     type := "joint_trajectory_controller/JointTrajectoryController";
     state := "inactive"; required_state_interfaces := ["j1/position"] |}.

(** ** Binding and unbinding, as attribute assignments *)

(** What [_on_jtc_enabled(val)] does when a controller is selected and
    the joint group has the rows [rows]. *)
Definition switched (val : bool) (rows : list JointWidget) (s : Plugin)
  : Plugin :=
  let s := set_speed_scaling_enabled val
             (set_joint_group (Some (map (setEnabled val) rows)) s) in
  if val
  then set_update_cmd_timer true (set_update_act_pos_timer false s)
  else set_update_act_pos_timer true (set_update_cmd_timer false s).

(** The attributes after [_unload_jtc]: the session is gone, and the
    enable button is unchecked, which switches to monitor mode if it was
    checked while a controller was selected. *)
Definition unloaded (s : Plugin) : Plugin :=
  let s0 :=
    set_joint_pos ∅
      (set_joint_names []
         (set_joint_group (Some [])
            (set_executor false
               (set_cmd_pub None
                  (set_state_sub None (set_jointStateChanged false s)))))) in
  if enable_button s then
    if selected s then switched false [] (set_enable_button false s0)
    else set_enable_button false s0
  else s0.

(** ** The mode state machine, as the specification words it *)

(** The joint group has a layout. *)
Definition has_layout (s : Plugin) : bool :=
  match joint_group s with Some _ => true | None => false end.

(** What the mode invariant looks at. *)
Definition mode_view (s : Plugin) : bool * bool * bool * bool * bool * bool :=
  (selected s, enable_button s, _update_cmd_timer s,
   _update_act_pos_timer s, has_layout s, bound s).

(** The two timers are never both active; in a bound session exactly one
    of them is; without a selected controller the command timer is
    inactive. The rest is what keeps this true from event to event: a
    bound session has a selected controller, a selected controller has a
    joint layout, and the command timer runs only while the enable
    button is checked. *)
Definition mode_ok (v : bool * bool * bool * bool * bool * bool) : bool :=
  let '(sel, checked, cmd, act, layout, bnd) := v in
  negb (cmd && act)
  && implb bnd (xorb cmd act)
  && implb (negb sel) (negb cmd)
  && implb bnd sel
  && implb sel layout
  && implb cmd checked.

(** Everything but the rows of the joint group's layout. *)
Definition forget_rows (s : Plugin) : Plugin :=
  set_joint_group (match joint_group s with Some _ => Some [] | None => None end) s.

(** The namespace [setup_ros_interfaces] resolves for the selected
    controller, or what the attempt raises. *)
Definition resolved_ns (s : Plugin) : result string :=
  match _jtc_name s, _cm_ns s with
  | Some jtc_name, Some cm_ns => _resolve_controller_ns cm_ns jtc_name
  | Some jtc_name, None =>
      if truthy jtc_name then Raise AttributeError else Raise AssertionError
  | None, _ => Raise AssertionError
  end.

(** The attributes once the ROS interfaces of a session under the
    namespace [ns] are set up. *)
Definition connected (ns : string) (s : Plugin) : Plugin :=
  set_executor true
    (set_jointStateChanged true
       (set_cmd_pub (Some (ns +:+ "/joint_trajectory"))
          (set_state_sub (Some (ns +:+ "/controller_state")) s))).

(** The attributes with empty runtime-state entries for [names]. *)
Definition with_joints (names : list string) (s : Plugin) : Plugin :=
  set_joint_pos
    (fold_left (λ m n, <[n := empty_entry]> m) names (_joint_pos s))
    (set_joint_names names s).

(** The joint-limit cache together with the trace of lookups made to
    fill it. *)
Definition cache_view (s : Plugin)
  : gmap string JointLimits * list (list string) :=
  (_robot_joint_limits s, limit_lookups s).

(** ** Further notions *)

(** The editor row of a joint with the limits [limits]. *)
Definition joint_row (name : string) (limits : JointLimits) : JointWidget :=
  {| label := name; editor_min := min_position limits;
     editor_max := max_position limits; enabled := true |}.

(** The rows "Update joint display" can make: one per joint, in order,
    up to the first joint without limits. *)
Fixpoint rows_for (limits : gmap string JointLimits) (names : list string)
  : list JointWidget :=
  match names with
  | [] => []
  | name :: rest =>
      match limits !! name with
      | Some l => joint_row name l :: rows_for limits rest
      | None => []
      end
  end.

(** The plugin after the controller manager was chosen and its
    controllers listed, before any controller is selected. *)
Definition listing : Plugin :=
  run [CmChange "/controller_manager" [arm] urdf_limits] (init None 1%float).


(** The command of one joint, as a view of the attributes. *)
Definition command_of (joint : string) (s : Plugin) : option float :=
  joint_command s joint.

(** What belongs to the session and the selection, as opposed to the
    mode: the attributes a click on the enable button has no business
    with. *)
Definition session_data (s : Plugin) :=
  (_jtc_name s, _cm_ns s, _joint_pos s, _joint_names s,
   _robot_joint_limits s, _speed_scale s, _cmd_pub s, _state_sub s,
   published s, limit_lookups s).

(** * Properties *)

(** ** Strings *)

Lemma split_nonempty s : Str.split s ≠ [].
Proof.
  destruct s as [|c r]; simpl; [done|].
  destruct (Str.is_slash c); [done|]. by destruct (Str.split r).
Qed.

Lemma split_no_slash s : Str.no_slash s = true → Str.split s = [s].
Proof.
  induction s as [|c r IH]; simpl; [done|].
  intros [Hc Hr]%andb_prop. apply negb_true_iff in Hc. rewrite Hc.
  by rewrite (IH Hr).
Qed.

Lemma is_slash_true c : Str.is_slash c = true → c = "/"%char.
Proof. unfold Str.is_slash. by intros ?%Ascii.eqb_eq. Qed.

Lemma split_snoc p seg :
  Str.no_slash seg = true →
  Str.split (p +:+ String "/" seg) = Str.split p ++ [seg].
Proof.
  intros Hseg. induction p as [|c p IH]; simpl.
  - by rewrite (split_no_slash _ Hseg).
  - rewrite IH. destruct (Str.is_slash c); [done|].
    pose proof (split_nonempty p). by destruct (Str.split p).
Qed.

Lemma join_split s : Str.join (Str.split s) = s.
Proof.
  unfold Str.join. induction s as [|c r IH]; simpl; [done|].
  pose proof (split_nonempty r) as Hne.
  destruct (Str.is_slash c) eqn:Hc.
  - apply is_slash_true in Hc as ->.
    destruct (Str.split r) as [|h t]; [done|]. simpl in *. by rewrite IH.
  - destruct (Str.split r) as [|h t]; [done|].
    destruct t; simpl in *; by rewrite <- IH.
Qed.

Lemma joint_of_interface_snoc p seg :
  Str.no_slash seg = true →
  joint_of_interface (p +:+ String "/" seg) = p.
Proof.
  intros Hseg. unfold joint_of_interface, Str.all_but_last.
  rewrite (split_snoc _ _ Hseg), removelast_last. apply join_split.
Qed.

Lemma joint_of_interface_no_slash seg :
  Str.no_slash seg = true → joint_of_interface seg = "".
Proof.
  intros Hseg. unfold joint_of_interface. by rewrite (split_no_slash _ Hseg).
Qed.





(** ** NamespaceResolver *)

Lemma append_assoc (a b c : string) : (a +:+ b) +:+ c = a +:+ b +:+ c.
Proof.
  induction a as [|x a IH]; [done|].
  change (String x ((a +:+ b) +:+ c) = String x (a +:+ b +:+ c)).
  by f_equal.
Qed.

(** Outside the namespaces the plugin resolves: a string without any
    slash is no namespace of a controller manager; [rsplit] finds
    nothing to split at and the string is kept whole. *)
Remark resolve_keeps_slashless_ns :
  _resolve_controller_ns "cm" "foo" = Ok "cm/foo".
Proof. reflexivity. Qed.



(** ** Joint-name extraction *)

Lemma filter_all {A} (P : A → Prop) `{!∀ x, Decision (P x)} (l : list A) :
  (∀ x, P x) → filter P l = l.
Proof.
  intros HP. induction l as [|x l IH]; [done|].
  rewrite filter_cons_True by done. by f_equal.
Qed.

Lemma dedup_first_elem_of (l : list string) x : x ∈ dedup_first l ↔ x ∈ l.
Proof.
  induction l as [|y l IH]; simpl; [done|].
  rewrite !elem_of_cons, list_elem_of_filter, IH.
  destruct (decide (x = y)); tauto.
Qed.

Lemma dedup_first_NoDup (l : list string) : NoDup (dedup_first l).
Proof.
  induction l as [|y l IH]; simpl; [constructor|].
  constructor.
  - rewrite list_elem_of_filter. tauto.
  - by apply NoDup_filter.
Qed.

Lemma dedup_first_sublist (l : list string) : sublist (dedup_first l) l.
Proof.
  induction l as [|y l IH]; simpl; [constructor|].
  apply sublist_skip. etrans; [apply sublist_filter|done].
Qed.

(** The loop appends, to the names it starts with, the first occurrences
    of the names it has not seen. *)
Lemma jtc_joint_names_loop_spec (interfaces joint_names : list string) :
  jtc_joint_names_loop interfaces joint_names
  = joint_names
    ++ filter (λ y, y ∉ joint_names)
         (dedup_first (map joint_of_interface interfaces)).
Proof.
  revert joint_names.
  induction interfaces as [|i rest IH]; intros acc; simpl.
  - by rewrite app_nil_r.
  - case_bool_decide as Hin; rewrite IH.
    + rewrite filter_cons_False by (intros ?; done).
      rewrite list_filter_filter. f_equal.
      apply list_filter_iff. intros y. split; [|tauto].
      intros Hy. split; [done|]. by intros ->.
    + rewrite filter_cons_True by done.
      rewrite <- app_assoc. simpl. do 2 f_equal.
      rewrite list_filter_filter. apply list_filter_iff.
      intros y. rewrite elem_of_app, list_elem_of_singleton. tauto.
Qed.

(** C8: the joint names of a controller are its interface identifiers,
    each cut down to all but its last slash-separated segment, with every
    name kept once, at the place of its first appearance. *)
Theorem jtc_joint_names_spec (jtc_info : ControllerInfo) :
  let stripped :=
    map joint_of_interface (required_state_interfaces jtc_info) in
  _jtc_joint_names jtc_info = dedup_first stripped
  ∧ NoDup (_jtc_joint_names jtc_info)
  ∧ (∀ x, x ∈ _jtc_joint_names jtc_info ↔ x ∈ stripped)
  ∧ sublist (_jtc_joint_names jtc_info) stripped
  ∧ (∀ interface,
       joint_of_interface interface
       = Str.join (Str.all_but_last (Str.split interface)))
  ∧ (∀ p seg, Str.no_slash seg = true →
       joint_of_interface (p +:+ String "/" seg) = p)
  ∧ (∀ seg, Str.no_slash seg = true → joint_of_interface seg = "").
Proof.
  intros stripped.
  assert (_jtc_joint_names jtc_info = dedup_first stripped) as ->.
  { unfold _jtc_joint_names. rewrite jtc_joint_names_loop_spec. simpl.
    apply filter_all. intros x. apply not_elem_of_nil. }
  split; [done|]. split; [apply dedup_first_NoDup|].
  split; [apply dedup_first_elem_of|]. split; [apply dedup_first_sublist|].
  split; [done|]. split.
  - apply joint_of_interface_snoc.
  - apply joint_of_interface_no_slash.
Qed.

(** C8 on the interfaces of two joints. *)
Lemma jtc_joint_names_example :
  _jtc_joint_names
    {| name := "arm"; type := "JointTrajectoryController";
       state := "active";
       required_state_interfaces :=
         ["j1/position"; "j1/velocity"; "j2/position"] |}
  = ["j1"; "j2"].
Proof.
  etrans; [apply (proj1 (jtc_joint_names_spec _))|]. vm_compute. reflexivity.
Defined.

(** ** Running computations *)

Lemma bind_ok {A B} (m : M A) (k : A → M B) s a s' :
  m s = (Ok a, s') → (m ≫= k) s = k a s'.
Proof. intros H. unfold mbind, M_bind, bind. by rewrite H. Qed.

Lemma bind_raise {A B} (m : M A) (k : A → M B) s e s' :
  m s = (Raise e, s') → (m ≫= k) s = (Raise e, s').
Proof. intros H. unfold mbind, M_bind, bind. by rewrite H. Qed.

Ltac unfold_M :=
  unfold mbind, M_bind, bind, mret, M_ret, ret, raise, get, modify, lift,
    try_except in *.

Lemma preserves_ret {X A} (f : Plugin → X) (a : A) : preserves f (ret a).
Proof. done. Qed.

Lemma preserves_raise {X A} (f : Plugin → X) e : preserves f (@raise A e).
Proof. done. Qed.

Lemma preserves_get {X} (f : Plugin → X) : preserves f get.
Proof. done. Qed.

Lemma preserves_lift {X A} (f : Plugin → X) (r : result A) :
  preserves f (lift r).
Proof. done. Qed.

Lemma preserves_modify {X} (f : Plugin → X) (g : Plugin → Plugin) :
  (∀ s, f (g s) = f s) → preserves f (modify g).
Proof. intros H s. apply H. Qed.

Lemma preserves_bind {X A B} (f : Plugin → X) (m : M A) (k : A → M B) :
  preserves f m → (∀ a, preserves f (k a)) → preserves f (m ≫= k).
Proof.
  intros Hm Hk s. unfold mbind, M_bind, bind.
  specialize (Hm s). destruct (m s) as [[a|e] s']; simpl in *; [|done].
  by rewrite Hk.
Qed.

Lemma preserves_try {X A} (f : Plugin → X) (m : M A) :
  preserves f m → preserves f (try_except m).
Proof. intros Hm s. apply Hm. Qed.

Lemma preserves_for_each {X A} (f : Plugin → X) (l : list A) body :
  (∀ x, preserves f (body x)) → preserves f (for_each l body).
Proof.
  intros Hb. induction l as [|x l IH]; simpl; [done|].
  apply preserves_bind; [apply Hb|done].
Qed.

Lemma preserves_for_fold {X A B} (f : Plugin → X) (l : list A) (acc : B)
    body :
  (∀ acc x, preserves f (body acc x)) → preserves f (for_fold l acc body).
Proof.
  intros Hb. revert acc. induction l as [|x l IH]; intros acc; simpl;
    [done|].
  apply preserves_bind; [apply Hb|done].
Qed.

(** Walk through a computation, one construct at a time. *)
Create HintDb frame discriminated.

Ltac frame_step :=
  first
    [ solve [auto 1 with frame nocore]
    | lazymatch goal with
      | |- preserves _ (match ?x with _ => _ end) => destruct x
      | |- preserves _ (let _ := _ in _) => progress cbv zeta
      | |- preserves _ (_ ≫= _) => apply preserves_bind; [|intros ?]
      | |- preserves _ (ret _) => apply preserves_ret
      | |- preserves _ (raise _) => apply preserves_raise
      | |- preserves _ get => apply preserves_get
      | |- preserves _ (lift _) => apply preserves_lift
      | |- preserves _ (modify _) =>
          apply preserves_modify; intros ?; reflexivity
      | |- preserves _ (try_except _) => apply preserves_try
      | |- preserves _ (for_each _ _) => apply preserves_for_each; intros ?
      | |- preserves _ (for_fold _ _ _) =>
          apply preserves_for_fold; intros ? ?
      end
    | progress
        unfold _on_speed_scaling_change, _state_cb, state_cb_body, index,
          emit_jointStateChanged, _on_joint_state_change, store_position,
          _update_single_cmd_cb, _update_cmd_cb, update_cmd_body,
          _on_jtc_change, _unload_jtc, _unregister_state_sub,
          _unregister_cmd_pub, _unregister_executor, setChecked, _load_jtc,
          load_joint_data, _running_jtc_info, init_entry,
          update_joint_display, add_joint_row, addRow,
          setup_ros_interfaces, user_toggle, _update_jtc_list,
          fetch_limits, _on_cm_change ].

Ltac frame := repeat frame_step.

(** ** Feedback: the runtime-state update *)

Lemma dict_get_elem_of (d : list (string * float)) k :
  k ∈ map fst d → ∃ v, dict_get d k = Ok v.
Proof.
  induction d as [|[k' v'] d IH]; simpl; [by intros ?%elem_of_nil|].
  intros Hin. destruct (String.eqb k' k) eqn:Hk; [by eauto|].
  apply elem_of_cons in Hin as [->|Hin]; [|by apply IH].
  by rewrite String.eqb_refl in Hk.
Qed.

Lemma store_position_loop current_pos (l : list string) s :
  (∀ name, name ∈ l →
     is_Some (_joint_pos s !! name) ∧ name ∈ map fst current_pos) →
  ∃ m', for_each l (store_position current_pos) s
        = (Ok tt, set_joint_pos m' s)
    ∧ ∀ name, m' !! name
              = if bool_decide (name ∈ l)
                then updated_entry current_pos name <$> _joint_pos s !! name
                else _joint_pos s !! name.
Proof.
  revert s. induction l as [|x l IH]; intros s Hl.
  - exists (_joint_pos s). split; [by destruct s|].
    intros name. by rewrite bool_decide_eq_false_2 by apply not_elem_of_nil.
  - simpl. destruct (Hl x) as [[entry Hentry] Hx]; [by left|].
    destruct (dict_get_elem_of _ _ Hx) as [v Hv].
    set (s1 := set_joint_pos
                 (<[x := {| position := Some v; command := command entry |}]>
                    (_joint_pos s)) s).
    assert (store_position current_pos x s = (Ok tt, s1)) as Hstep.
    { unfold store_position. unfold_M. simpl. by rewrite Hv, Hentry. }
    erewrite bind_ok by exact Hstep.
    destruct (IH s1) as (m' & Hrun & Hm').
    { intros name Hname. destruct (Hl name) as [Hsome ?]; [by right|].
      split; [|done]. simpl. by apply lookup_insert_is_Some'; right. }
    exists m'. split; [by rewrite Hrun|].
    intros name. rewrite Hm'. simpl.
    destruct (decide (name = x)) as [->|Hne].
    + rewrite lookup_insert_eq, Hentry.
      rewrite (bool_decide_eq_true_2 (x ∈ x :: l)) by by left.
      unfold updated_entry. rewrite Hv. by case_bool_decide.
    + rewrite lookup_insert_ne by done.
      assert (name ∈ x :: l ↔ name ∈ l) as Hiff
          by (rewrite elem_of_cons; tauto).
      by rewrite (bool_decide_ext _ _ Hiff).
Qed.

(** C10: a feedback update as large as the runtime-state table and with
    known joints only goes through, and all it changes is the position of
    the reported joints: commands, the joint order, the limits and every
    other attribute stay as they were. *)
Theorem on_joint_state_change_frame (current_pos : list (string * float))
    (s : Plugin) :
  length current_pos = size (_joint_pos s) →
  (∀ name, name ∈ map fst current_pos → is_Some (_joint_pos s !! name)) →
  ∃ table,
    _on_joint_state_change current_pos s = (Ok tt, set_joint_pos table s)
    ∧ (∀ name,
         table !! name
         = if bool_decide (name ∈ map fst current_pos)
           then updated_entry current_pos name <$> _joint_pos s !! name
           else _joint_pos s !! name)
    ∧ (∀ name, command <$> table !! name
               = command <$> _joint_pos s !! name)
    ∧ (∀ name v, dict_get current_pos name = Ok v →
         position <$> table !! name = Some (Some v))
    ∧ _joint_names (set_joint_pos table s) = _joint_names s
    ∧ _robot_joint_limits (set_joint_pos table s) = _robot_joint_limits s.
Proof.
  intros Hlen Hknown.
  destruct (store_position_loop current_pos (map fst current_pos) s)
    as (table & Hrun & Htable); [by auto|].
  exists table. split; [|split; [done|split; [|split; [|done]]]].
  - unfold _on_joint_state_change. unfold_M.
    by rewrite bool_decide_eq_true_2.
  - intros name. rewrite Htable. case_bool_decide; [|done].
    destruct (_joint_pos s !! name) as [entry|]; [simpl|done].
    unfold updated_entry. by destruct (dict_get current_pos name).
  - intros name v Hv. rewrite Htable.
    assert (name ∈ map fst current_pos) as Hin.
    { clear -Hv. induction current_pos as [|[k' v'] d IH]; [done|].
      simpl in *. destruct (String.eqb k' name) eqn:Hk.
      - apply String.eqb_eq in Hk as ->. by left.
      - right. by apply IH. }
    rewrite bool_decide_eq_true_2 by done.
    destruct (Hknown _ Hin) as [entry ->]. simpl.
    unfold updated_entry. by rewrite Hv.
Qed.

(** C10 on the bound sample session, for a report on both joints. *)
Lemma on_joint_state_change_frame_example :
  ∃ table,
    _on_joint_state_change [("j1", 0.5%float); ("j2", 0.25%float)] monitoring
    = (Ok tt, set_joint_pos table monitoring)
    ∧ table !! "j1" = Some {| position := Some 0.5%float; command := None |}
    ∧ table !! "j2" = Some {| position := Some 0.25%float; command := None |}.
Proof.
  destruct (on_joint_state_change_frame
              [("j1", 0.5%float); ("j2", 0.25%float)] monitoring)
    as (table & Hrun & Htable & _).
  - vm_compute. reflexivity.
  - intros name Hin. simpl in Hin.
    apply elem_of_cons in Hin as [->|Hin]; [vm_compute; eauto|].
    apply list_elem_of_singleton in Hin as ->. vm_compute. eauto.
  - exists table. split; [exact Hrun|]. rewrite !Htable. split; reflexivity.
Defined.

(** ** Feedback: the subscription callback *)

Lemma state_cb_loop msg (seen_names : list string) (seen_pos : list float)
    (names : list string) (positions : list float) current_pos s :
  msg_joint_names msg = seen_names ++ names →
  msg_feedback_positions msg = seen_pos ++ positions →
  length seen_names = length seen_pos →
  for_fold (seq (length seen_names) (length names)) current_pos
    (state_cb_body msg) s
  = (zip_positions names positions current_pos, s).
Proof.
  revert seen_names seen_pos positions current_pos.
  induction names as [|n names IH];
    intros seen_names seen_pos positions current_pos Hn Hp Hlen; [done|].
  assert (state_cb_body msg current_pos (length seen_names) s
          = (match positions with
             | [] => Raise IndexError
             | p :: _ => Ok (dict_set current_pos n p)
             end, s)) as Hstep.
  { unfold state_cb_body, index. unfold_M.
    rewrite Hn, Hp, list_lookup_middle by done.
    destruct positions as [|p positions].
    - by rewrite app_nil_r, Hlen, lookup_ge_None_2.
    - by rewrite list_lookup_middle. }
  simpl. destruct positions as [|p positions].
  - by erewrite bind_raise.
  - erewrite bind_ok by exact Hstep.
    specialize (IH (seen_names ++ [n]) (seen_pos ++ [p]) positions
                  (dict_set current_pos n p)).
    rewrite length_app in IH. simpl in IH.
    rewrite Nat.add_1_r in IH. apply IH.
    + by rewrite Hn, <- app_assoc.
    + by rewrite Hp, <- app_assoc.
    + rewrite !length_app. simpl. lia.
Qed.

Lemma zip_positions_short names positions current_pos :
  length positions < length names →
  zip_positions names positions current_pos = Raise IndexError.
Proof.
  revert positions current_pos.
  induction names as [|n names IH]; intros [|p positions] current_pos;
    simpl; intros Hlen; try done; try lia.
  apply IH. lia.
Qed.

Lemma zip_positions_enough names positions current_pos :
  length names ≤ length positions →
  ∃ d, zip_positions names positions current_pos = Ok d.
Proof.
  revert positions current_pos.
  induction names as [|n names IH]; intros [|p positions] current_pos;
    simpl; intros Hlen; eauto; try lia.
  apply IH. lia.
Qed.

Lemma state_cb_unfold msg s :
  _state_cb msg s
  = match zip_positions (msg_joint_names msg) (msg_feedback_positions msg) []
    with
    | Ok current_pos => emit_jointStateChanged current_pos s
    | Raise e => (Raise e, s)
    end.
Proof.
  pose proof (state_cb_loop msg [] [] (msg_joint_names msg)
                (msg_feedback_positions msg) [] s eq_refl eq_refl eq_refl)
    as Hloop.
  simpl in Hloop. unfold _state_cb. unfold mbind, M_bind, bind.
  rewrite Hloop. by destruct (zip_positions _ _ _).
Qed.

(** C6, where the claim fails: a report with one position too many is
    not rejected; the surplus is never read and the positions of the
    bound session change. *)
Lemma state_cb_accepts_surplus_positions :
  let msg := {| msg_joint_names := ["j1"; "j2"];
                msg_feedback_positions :=
                  [0.5%float; 0.25%float; 9%float] |} in
  length (msg_joint_names msg) ≠ length (msg_feedback_positions msg)
  ∧ (_state_cb msg monitoring).1 = Ok tt
  ∧ _joint_pos monitoring !! "j1" = Some empty_entry
  ∧ _joint_pos (_state_cb msg monitoring).2 !! "j1"
    = Some {| position := Some 0.5%float; command := None |}.
Proof. vm_compute. repeat split; done. Qed.

Lemma zip_positions_surplus names positions surplus current_pos :
  length names ≤ length positions →
  zip_positions names (positions ++ surplus) current_pos
  = zip_positions names positions current_pos.
Proof.
  revert positions current_pos.
  induction names as [|n names IH]; intros [|p positions] current_pos;
    simpl; intros Hlen; try done; try lia.
  apply IH. lia.
Qed.

(** C6, as the code has it: a report with fewer positions than joint
    names makes the callback raise [IndexError] before anything is
    emitted, and every attribute is as before. A report with more
    positions than joint names is not rejected for that: the positions
    past the last name are never read, and the callback does with the
    report exactly what it does with the report without them. *)
Theorem state_cb_length_mismatch (names : list string)
    (positions surplus : list float) (s : Plugin) :
  (length positions < length names →
   _state_cb {| msg_joint_names := names;
                msg_feedback_positions := positions |} s
   = (Raise IndexError, s))
  ∧ (length names ≤ length positions →
     _state_cb {| msg_joint_names := names;
                  msg_feedback_positions := positions ++ surplus |} s
     = _state_cb {| msg_joint_names := names;
                    msg_feedback_positions := positions |} s).
Proof.
  split; intros Hlen; rewrite !state_cb_unfold; simpl.
  - by rewrite zip_positions_short.
  - by rewrite zip_positions_surplus.
Qed.

(** C6 on a report that names two joints and carries one position, and
    on a report for the two joints with a third position. *)
Lemma state_cb_length_mismatch_example :
  _state_cb {| msg_joint_names := ["j1"; "j2"];
               msg_feedback_positions := [0.5%float] |} monitoring
  = (Raise IndexError, monitoring)
  ∧ _state_cb {| msg_joint_names := ["j1"; "j2"];
                 msg_feedback_positions :=
                   [0.5%float; 0.25%float; 9%float] |} monitoring
    = _state_cb {| msg_joint_names := ["j1"; "j2"];
                   msg_feedback_positions := [0.5%float; 0.25%float] |}
        monitoring.
Proof.
  split.
  - apply (proj1 (state_cb_length_mismatch ["j1"; "j2"] [0.5%float] []
                    monitoring)).
    simpl. lia.
  - apply (proj2 (state_cb_length_mismatch ["j1"; "j2"]
                    [0.5%float; 0.25%float] [9%float] monitoring)).
    simpl. lia.
Defined.

(** ** Command synthesis *)

Lemma update_cmd_body_state acc name :
  preserves (λ s, s) (update_cmd_body acc name).
Proof. unfold update_cmd_body. frame. Qed.

Lemma update_cmd_body_no_position acc name s :
  joint_position s name = None →
  ∃ e, update_cmd_body acc name s = (Raise e, s).
Proof.
  unfold joint_position, update_cmd_body. unfold_M. simpl.
  destruct (_joint_pos s !! name) as [entry|]; simpl; [|by eauto].
  intros ->. by eauto.
Qed.

Lemma update_cmd_loop_no_position (l : list string) acc name s :
  name ∈ l → joint_position s name = None →
  ∃ e, for_fold l acc update_cmd_body s = (Raise e, s).
Proof.
  intros Hin Hpos. revert acc.
  induction l as [|x l IH]; intros acc; [by apply elem_of_nil in Hin|].
  simpl. pose proof (update_cmd_body_state acc x s) as Hs.
  destruct (update_cmd_body acc x s) as [[acc'|e] s'] eqn:Hstep;
    simpl in Hs; subst s'.
  - erewrite bind_ok by exact Hstep.
    apply elem_of_cons in Hin as [->|Hin]; [|by apply IH].
    destruct (update_cmd_body_no_position acc x s Hpos) as [e He].
    congruence.
  - erewrite bind_raise by exact Hstep. by eauto.
Qed.

(** C9: when a joint of the session's joint order has no position yet,
    the synthesis cycle raises before it reaches the publisher: nothing is
    published, and no attribute changes. *)
Theorem update_cmd_cb_unknown_position
    (Duration_to_msg : float → result DurationMsg)
    (s : Plugin) (name : string) :
  name ∈ _joint_names s → joint_position s name = None →
  ∃ e, _update_cmd_cb Duration_to_msg s = (Raise e, s)
       ∧ published (_update_cmd_cb Duration_to_msg s).2 = published s.
Proof.
  intros Hin Hpos.
  destruct (update_cmd_loop_no_position _ ([], []) _ _ Hin Hpos) as [e He].
  exists e.
  assert (_update_cmd_cb Duration_to_msg s = (Raise e, s)) as ->; [|done].
  unfold _update_cmd_cb. unfold mbind at 1, M_bind, bind at 1, get.
  by erewrite bind_raise.
Qed.

(** C9 on the bound sample session before any feedback. *)
Lemma update_cmd_cb_unknown_position_example :
  ∃ e, _update_cmd_cb rclpy_duration monitoring = (Raise e, monitoring)
       ∧ published (_update_cmd_cb rclpy_duration monitoring).2
         = published monitoring.
Proof.
  apply (update_cmd_cb_unknown_position rclpy_duration monitoring "j2").
  - vm_compute. right. left.
  - vm_compute. reflexivity.
Defined.

Lemma update_cmd_body_ready acc name s :
  ready s name →
  update_cmd_body acc name s
  = (Ok (acc.1 ++ [joint_duration s name], acc.2 ++ [target s name]), s).
Proof.
  intros [[pos Hpos] (limits & Hlimits & Hvel)].
  unfold joint_duration, target, joint_max_velocity, joint_command.
  rewrite Hpos, Hlimits. unfold joint_position in Hpos.
  unfold update_cmd_body, pydiv. unfold_M. simpl.
  destruct (_joint_pos s !! name) as [entry|]; simpl in *; [|done].
  rewrite Hpos, Hlimits, Hvel. by destruct (command entry).
Qed.

Lemma update_cmd_loop_ready (l : list string) acc s :
  (∀ name, name ∈ l → ready s name) →
  for_fold l acc update_cmd_body s
  = (Ok (acc.1 ++ map (joint_duration s) l, acc.2 ++ map (target s) l), s).
Proof.
  revert acc. induction l as [|x l IH]; intros acc Hl; simpl.
  - rewrite !app_nil_r. by destruct acc.
  - erewrite bind_ok by (apply update_cmd_body_ready, Hl; by left).
    rewrite IH by (intros; apply Hl; by right).
    simpl. by rewrite <- !app_assoc.
Qed.

(** The synthesis up to the conversion of the seconds: in a session
    whose joints are all ready, with a speed scale other than zero, the
    cycle hands [trajectory_duration] to [Duration] and does as the
    conversion decides: it raises what the conversion raises, and
    otherwise publishes, if there is a publisher. *)
Lemma update_cmd_cb_ready (Duration_to_msg : float → result DurationMsg)
    (s : Plugin) :
  _joint_names s ≠ [] →
  (∀ name, name ∈ _joint_names s → ready s name) →
  PrimFloat.eqb (_speed_scale s) 0 = false →
  _update_cmd_cb Duration_to_msg s
  = match Duration_to_msg (trajectory_duration s) with
    | Raise e => (Raise e, s)
    | Ok duration =>
        match _cmd_pub s with
        | None => (Raise AttributeError, s)
        | Some _ =>
            (Ok tt,
             set_published (published s ++ [synthesized duration s]) s)
        end
    end.
Proof.
  intros Hjoints Hready Hscale.
  unfold _update_cmd_cb. unfold mbind at 1, M_bind, bind at 1, get.
  erewrite bind_ok by (by apply update_cmd_loop_ready).
  simpl. unfold synthesized, trajectory_duration, max_over.
  destruct (_joint_names s) as [|x l] eqn:Hnames; [done|]. simpl.
  unfold pydiv. unfold_M. rewrite Hscale. unfold lift.
  destruct (Duration_to_msg _) as [duration|e]; [|done].
  by destruct (_cmd_pub s).
Qed.

(** C2, where the claim fails: four bound sessions in control mode,
    every joint reported, and a synthesis cycle that publishes nothing:
    a joint without limits, a controller without joints, a velocity
    limit of zero, and a reported position that is not a number, for
    which no duration can be made. *)
Lemma update_cmd_cb_needs_more :
  (bound degraded = true
   ∧ _joint_names degraded = ["j1"; "j3"]
   ∧ joint_position degraded "j1" = Some 0%float
   ∧ joint_position degraded "j3" = Some 0%float
   ∧ _update_cmd_cb rclpy_duration degraded
     = (Raise (KeyError "j3"), degraded))
  ∧ (bound jointless = true
     ∧ _joint_names jointless = []
     ∧ _update_cmd_cb rclpy_duration jointless
       = (Raise ValueError, jointless))
  ∧ (bound stiff = true
     ∧ _joint_names stiff = ["j1"]
     ∧ joint_position stiff "j1" = Some 0%float
     ∧ _update_cmd_cb rclpy_duration stiff
       = (Raise ZeroDivisionError, stiff))
  ∧ (bound astray = true
     ∧ _joint_names astray = ["j1"]
     ∧ is_Some (joint_position astray "j1")
     ∧ _update_cmd_cb rclpy_duration astray = (Raise ValueError, astray)).
Proof. vm_compute. repeat split; try reflexivity. by eexists. Qed.

(** C2, as the code has it: in a bound session with at least one joint,
    where every joint has a position and limits with a velocity limit
    other than zero, the speed scale is not zero, and [Duration] makes a
    message of the seconds it is given, a synthesis cycle publishes
    exactly one message: the joints in the session's order, one point
    with, per joint, its command if set and else its position, and as
    duration the message made of the maximum over the joints of
    [max(|cmd - position| / max_velocity, 5 / command_rate)], divided by
    the speed scale. Nothing else changes. *)
Theorem update_cmd_cb_publishes
    (Duration_to_msg : float → result DurationMsg)
    (duration : DurationMsg) (s : Plugin) :
  bound s = true →
  _joint_names s ≠ [] →
  (∀ name, name ∈ _joint_names s → ready s name) →
  PrimFloat.eqb (_speed_scale s) 0 = false →
  Duration_to_msg (trajectory_duration s) = Ok duration →
  _update_cmd_cb Duration_to_msg s
  = (Ok tt, set_published (published s ++ [synthesized duration s]) s).
Proof.
  intros Hbound Hjoints Hready Hscale Hduration.
  rewrite update_cmd_cb_ready, Hduration by done.
  unfold bound in Hbound. apply bool_decide_eq_true in Hbound.
  by destruct (_cmd_pub s).
Qed.

(** C2 on the specification's numbers: position 0.0, command 1.0 and
    velocity limit 2.0 give 0.5 seconds at speed scale 1.0 and 1.0
    seconds at speed scale 0.5, and the message carries the duration
    made of them. *)
Lemma update_cmd_cb_publishes_example :
  (trajectory_duration (commanding 1%float) = 0.5%float
   ∧ _update_cmd_cb rclpy_duration (commanding 1%float)
     = (Ok tt,
        set_published
          [{| joint_names := ["j1"];
              points := [{| positions := [1%float];
                            time_from_start :=
                              {| sec := 0; nanosec := 500000000 |} |}] |}]
          (commanding 1%float)))
  ∧ (trajectory_duration (commanding 0.5%float) = 1%float
     ∧ _update_cmd_cb rclpy_duration (commanding 0.5%float)
       = (Ok tt,
          set_published
            [{| joint_names := ["j1"];
                points := [{| positions := [1%float];
                              time_from_start :=
                                {| sec := 1; nanosec := 0 |} |}] |}]
            (commanding 0.5%float))).
Proof.
  assert (∀ scale duration,
            PrimFloat.eqb scale 0 = false →
            rclpy_duration (trajectory_duration (commanding scale))
            = Ok duration →
            _update_cmd_cb rclpy_duration (commanding scale)
            = (Ok tt, set_published
                        (published (commanding scale)
                         ++ [synthesized duration (commanding scale)])
                        (commanding scale))) as Hrun.
  { intros scale duration Hscale Hduration.
    apply update_cmd_cb_publishes.
    - reflexivity.
    - discriminate.
    - intros name Hin. apply list_elem_of_singleton in Hin as ->.
      split; [by eexists|]. eexists. split; reflexivity.
    - exact Hscale.
    - exact Hduration. }
  split; (split; [vm_compute; reflexivity|]).
  - rewrite (Hrun 1%float {| sec := 0; nanosec := 500000000 |})
      by (vm_compute; reflexivity).
    reflexivity.
  - rewrite (Hrun 0.5%float {| sec := 1; nanosec := 0 |})
      by (vm_compute; reflexivity).
    reflexivity.
Defined.

(** ** Controller discovery *)

Lemma str_le_trans : Transitive str_le.
Proof.
  unfold str_le, String.leb. intros s1.
  induction s1 as [|c1 s1 IH]; intros [|c2 s2] [|c3 s3]; simpl; try done.
  unfold Ascii.compare.
  destruct (N.compare_spec (N_of_ascii c1) (N_of_ascii c2)) as [E12|L12|G12];
    destruct (N.compare_spec (N_of_ascii c2) (N_of_ascii c3))
      as [E23|L23|G23];
    destruct (N.compare_spec (N_of_ascii c1) (N_of_ascii c3))
      as [E13|L13|G13];
    try done; try lia.
  apply IH.
Qed.

Lemma str_le_total : Total str_le.
Proof. intros a b. apply String.leb_total. Qed.

Lemma running_jtc_info_run snapshot s :
  _list_controllers s ≠ None →
  _running_jtc_info snapshot s = (Ok (running_controllers snapshot), s).
Proof.
  intros Hl. unfold _running_jtc_info. unfold_M.
  destruct (_list_controllers s); [|done]. f_equal. f_equal.
  unfold running_controllers, filter_by_state, filter_by_type.
  induction snapshot as [|c l IH]; simpl; [done|].
  destruct (Str.contains _ (type c)); simpl; [|done].
  destruct (String.eqb (state c) "active"); by rewrite IH.
Qed.

Lemma fetch_limits_loop get_joint_limits (l : list ControllerInfo) s :
  for_each l (fetch_limits get_joint_limits) s
  = (Ok tt,
     set_robot_joint_limits
       (primed get_joint_limits l (_robot_joint_limits s))
       (set_limit_lookups (limit_lookups s ++ map _jtc_joint_names l) s)).
Proof.
  revert s. induction l as [|c l IH]; intros s; simpl.
  - rewrite app_nil_r. by destruct s.
  - unfold fetch_limits at 1. unfold_M. simpl. rewrite IH. simpl.
    by rewrite <- app_assoc.
Qed.

Lemma update_jtc_list_run snapshot get_joint_limits s :
  _list_controllers s ≠ None →
  _update_jtc_list snapshot get_joint_limits s
  = (Ok tt, discovered get_joint_limits snapshot s).
Proof.
  intros Hl. unfold _update_jtc_list.
  unfold mbind at 1, M_bind, bind at 1, get.
  rewrite bool_decide_eq_false_2 by done.
  erewrite bind_ok by (by apply running_jtc_info_run).
  unfold mbind at 1, M_bind, bind at 1, get.
  unfold discovered, valid_controllers.
  destruct (negb (bool_decide (running_controllers snapshot = []))
            && bool_decide (size (_robot_joint_limits s) = 0)) eqn:Hprime.
  - erewrite bind_ok; last first.
    { erewrite bind_ok by reflexivity. apply fetch_limits_loop. }
    unfold_M. simpl.
    destruct (bool_decide (size (primed _ _ _) = 0)); reflexivity.
  - unfold_M. simpl. destruct (bool_decide (size _ = 0)); reflexivity.
Qed.

Lemma valid_controllers_elem_of limits snapshot c :
  c ∈ valid_controllers limits snapshot
  ↔ size limits ≠ 0
    ∧ c ∈ snapshot
    ∧ Str.contains "JointTrajectoryController" (type c) = true
    ∧ state c = "active"
    ∧ ∀ joint, joint ∈ _jtc_joint_names c → is_Some (limits !! joint).
Proof.
  unfold valid_controllers, running_controllers, has_limits.
  case_bool_decide as Hsize.
  - split; [by intros ?%elem_of_nil|tauto].
  - rewrite !list_elem_of_In, !filter_In, <- !list_elem_of_In.
    rewrite andb_true_iff, String.eqb_eq, forallb_forall.
    split.
    + intros [(? & ? & ?) Hall]. repeat split; try done.
      intros joint Hj. apply list_elem_of_In, Hall in Hj.
      by apply bool_decide_eq_true in Hj.
    + intros (_ & ? & ? & ? & Hall). repeat split; try done.
      intros joint Hj. apply bool_decide_eq_true, Hall.
      by apply list_elem_of_In.
Qed.

(** C3, where the claim fails: with controller information available,
    one running controller, and a lookup that leaves the cache empty, the
    combo box gets no name at all, not the active set. *)
Lemma update_jtc_list_empty_cache :
  _list_controllers waiting = Some "/controller_manager"
  ∧ size (_robot_joint_limits waiting) = 0
  ∧ map name (running_controllers [arm]) = ["arm"]
  ∧ (_update_jtc_list [arm] no_limits waiting).1 = Ok tt
  ∧ size (_robot_joint_limits (_update_jtc_list [arm] no_limits waiting).2)
    = 0
  ∧ jtc_combo (_update_jtc_list [arm] no_limits waiting).2 = [].
Proof. vm_compute. repeat split; reflexivity. Qed.

(** C3, as the code has it: a discovery cycle with controller
    information returns, and the combo box gets the names, sorted, of the
    controllers of the reply whose type contains the marker, whose state
    is ["active"] and all of whose joints have an entry in the cache as
    it is after the cycle; while that cache is empty, it gets no name. *)
Theorem update_jtc_list_spec (snapshot : list ControllerInfo)
    (get_joint_limits : list string → gmap string JointLimits)
    (s : Plugin) :
  _list_controllers s ≠ None →
  let after := (_update_jtc_list snapshot get_joint_limits s).2 in
  let cache := _robot_joint_limits after in
  (_update_jtc_list snapshot get_joint_limits s).1 = Ok tt
  ∧ jtc_combo after = sorted (map name (valid_controllers cache snapshot))
  ∧ StronglySorted str_le (jtc_combo after)
  ∧ jtc_combo after ≡ₚ map name (valid_controllers cache snapshot)
  ∧ (∀ c, c ∈ valid_controllers cache snapshot
          ↔ size cache ≠ 0
            ∧ c ∈ snapshot
            ∧ Str.contains "JointTrajectoryController" (type c) = true
            ∧ state c = "active"
            ∧ ∀ joint, joint ∈ _jtc_joint_names c →
                       is_Some (cache !! joint))
  ∧ (size cache = 0 → jtc_combo after = []).
Proof.
  intros Hl after cache. subst after cache.
  rewrite (update_jtc_list_run _ _ _ Hl). simpl.
  set (cache := _robot_joint_limits _).
  split; [done|]. split; [done|]. split.
  { apply (@StronglySorted_merge_sort _ str_le _ str_le_trans str_le_total). }
  split; [apply merge_sort_Permutation|].
  split; [apply valid_controllers_elem_of|].
  intros Hsize. unfold valid_controllers.
  by rewrite bool_decide_eq_true_2.
Qed.

(** C3 on a reply with four controllers: the two valid ones come out in
    order, the one of another family and the inactive one do not. *)
Lemma update_jtc_list_example :
  jtc_combo
    (_update_jtc_list [wrist ["j1/position"]; gripper; spare; arm]
       urdf_limits waiting).2
  = ["arm"; "wrist"].
Proof.
  destruct (update_jtc_list_spec [wrist ["j1/position"]; gripper; spare; arm]
              urdf_limits waiting) as (_ & -> & _); [discriminate|].
  vm_compute. reflexivity.
Defined.

(** ** The mode switch *)

Lemma on_jtc_enabled_run val s :
  _on_jtc_enabled val s
  = if selected s then
      match joint_group s with
      | Some rows => (Ok tt, switched val rows s)
      | None => (Raise AttributeError, s)
      end
    else (Ok tt, set_enable_button false s).
Proof.
  unfold _on_jtc_enabled, selected, switched. simpl.
  unfold setChecked, _joint_widgets. unfold_M. simpl.
  destruct (truthy_attr (_jtc_name s)) eqn:Hsel; simpl.
  - destruct (joint_group s); [|done]. by destruct val.
  - destruct s as [? ? ? ? ? ? ? ? []]; simpl in *; by rewrite ?Hsel.
Qed.

(** The nesting of the slot never goes deeper than two levels: more fuel
    gives the same run, and that run never ends in [RecursionError]. *)
Lemma on_jtc_enabled_total n val s :
  on_jtc_enabled_fuel (S (S n)) val s = _on_jtc_enabled val s
  ∧ (_on_jtc_enabled val s).1 ≠ Raise RecursionError.
Proof.
  split.
  - unfold _on_jtc_enabled. simpl.
    unfold setChecked, _joint_widgets. unfold_M. simpl.
    destruct (truthy_attr (_jtc_name s)) eqn:Hsel; simpl; [done|].
    destruct (enable_button s); simpl; [|done]. by rewrite Hsel.
  - rewrite on_jtc_enabled_run. destruct (selected s); [|done].
    by destruct (joint_group s).
Qed.

Lemma user_toggle_run val s :
  user_toggle val s
  = if Bool.eqb (enable_button s) val then (Ok tt, s)
    else _on_jtc_enabled val (set_enable_button val s).
Proof.
  unfold user_toggle, setChecked. unfold_M.
  by destruct (Bool.eqb (enable_button s) val).
Qed.

Lemma unload_jtc_run s : _unload_jtc s = (Ok tt, unloaded s).
Proof.
  unfold _unload_jtc.
  unfold _unregister_state_sub, _unregister_cmd_pub, _unregister_executor.
  fold (user_toggle false).
  unfold_M. simpl.
  destruct s as [jn cm jp jns lim sc ct at_ eb sse jg combo lc cp ss ex
                   conn pub lk].
  destruct ss, cp, ex; simpl; rewrite user_toggle_run; simpl;
    unfold unloaded; simpl; destruct eb; simpl; try done;
    rewrite on_jtc_enabled_run; unfold selected; simpl;
    by destruct (truthy_attr jn).
Qed.

(** ** Binding *)

Lemma mode_view_forget_rows s : mode_view (forget_rows s) = mode_view s.
Proof. unfold mode_view, forget_rows, has_layout. simpl. by destruct (joint_group s). Qed.

Lemma addRow_forget_rows w : preserves forget_rows (addRow w).
Proof.
  intros s. unfold addRow. unfold_M. simpl.
  destruct (joint_group s) as [rows|] eqn:Hrows; simpl; [|done].
  unfold forget_rows. simpl. by rewrite Hrows.
Qed.

#[local] Hint Resolve addRow_forget_rows : frame.

Lemma update_joint_display_run s :
  (update_joint_display s).1 = Ok tt
  ∧ forget_rows (update_joint_display s).2 = forget_rows s.
Proof.
  split; [done|]. revert s.
  change (preserves forget_rows update_joint_display).
  unfold update_joint_display, add_joint_row. frame.
Qed.

Lemma init_entry_loop (l : list string) s :
  for_each l init_entry s
  = (Ok tt,
     set_joint_pos
       (fold_left (λ m n, <[n := empty_entry]> m) l (_joint_pos s)) s).
Proof.
  revert s. induction l as [|x l IH]; intros s; simpl.
  - by destruct s.
  - unfold init_entry at 1. unfold_M. simpl. by rewrite IH.
Qed.

Lemma load_joint_data_run snapshot s :
  load_joint_data snapshot s
  = match _list_controllers s with
    | None => (Raise TypeError, s)
    | Some _ =>
        match List.find (is_selected s) (running_controllers snapshot) with
        | None => (Raise StopIteration, s)
        | Some x => (Ok tt, with_joints (_jtc_joint_names x) s)
        end
    end.
Proof.
  unfold load_joint_data.
  destruct (_list_controllers s) as [lister|] eqn:Hl.
  - erewrite bind_ok by (apply running_jtc_info_run; by rewrite Hl).
    unfold mbind at 1, M_bind, bind at 1, get.
    destruct (List.find _ _) as [x|]; [|done].
    erewrite bind_ok by reflexivity.
    unfold mbind at 1, M_bind, bind at 1, get. simpl.
    by rewrite init_entry_loop.
  - unfold _running_jtc_info. unfold_M. by rewrite Hl.
Qed.

Lemma setup_ros_interfaces_run s :
  setup_ros_interfaces s
  = match resolved_ns s with
    | Ok ns => (Ok tt, connected ns s)
    | Raise e => (Raise e, s)
    end.
Proof.
  unfold setup_ros_interfaces, resolved_ns. unfold_M.
  destruct (_jtc_name s) as [n|]; [|done].
  destruct (_cm_ns s) as [ns|].
  - by destruct (_resolve_controller_ns ns n).
  - by destruct (truthy n).
Qed.

Lemma on_jtc_change_run snapshot jtc_name s :
  _on_jtc_change snapshot jtc_name s
  = if truthy jtc_name
    then _load_jtc snapshot (set_jtc_name (Some jtc_name) (unloaded s))
    else (Ok tt, set_jtc_name (Some jtc_name) (unloaded s)).
Proof.
  unfold _on_jtc_change.
  erewrite bind_ok by apply unload_jtc_run.
  erewrite bind_ok by reflexivity.
  unfold mbind at 1, M_bind, bind at 1, get. simpl.
  by destruct (truthy jtc_name).
Qed.

(** C5, where the claim fails: the sample session is bound to [arm];
    selecting a controller the listing does not have raises, and the
    session that was bound is gone. *)
Lemma bind_to_absent_unbinds :
  bound monitoring = true
  ∧ _joint_names monitoring = ["j1"; "j2"]
  ∧ (_on_jtc_change [arm] "ghost" monitoring).1 = Raise StopIteration
  ∧ bound (_on_jtc_change [arm] "ghost" monitoring).2 = false
  ∧ _joint_names (_on_jtc_change [arm] "ghost" monitoring).2 = []
  ∧ _jtc_name (_on_jtc_change [arm] "ghost" monitoring).2 = Some "ghost".
Proof. vm_compute. repeat split; reflexivity. Qed.

(** C5, as the code has it: selecting a name that no running controller
    of the listing has raises ([StopIteration]; [TypeError] when there is
    no listing at all), after the previous session has been unloaded:
    there is no publisher, no subscription, no executor, no runtime
    state and no joint list afterwards, neither of the old session nor
    of a new one, and nothing has been published. *)
Theorem on_jtc_change_absent (snapshot : list ControllerInfo)
    (jtc_name : string) (s : Plugin) :
  truthy jtc_name = true →
  (∀ c, c ∈ running_controllers snapshot → name c ≠ jtc_name) →
  let after := set_jtc_name (Some jtc_name) (unloaded s) in
  _on_jtc_change snapshot jtc_name s
  = (Raise (match _list_controllers s with
            | Some _ => StopIteration
            | None => TypeError
            end), after)
  ∧ bound after = false
  ∧ _cmd_pub after = None
  ∧ _state_sub after = None
  ∧ _executor after = false
  ∧ jointStateChanged after = false
  ∧ _joint_pos after = ∅
  ∧ _joint_names after = []
  ∧ published after = published s.
Proof.
  intros Hname Habsent after. split.
  - rewrite on_jtc_change_run, Hname. unfold _load_jtc.
    assert (load_joint_data snapshot after
            = (Raise (match _list_controllers s with
                      | Some _ => StopIteration
                      | None => TypeError
                      end), after)) as Hload.
    { rewrite load_joint_data_run.
      assert (_list_controllers after = _list_controllers s) as ->.
      { unfold after, unloaded.
        destruct (enable_button s); [destruct (selected s)|]; done. }
      destruct (_list_controllers s); [|done].
      destruct (List.find _ _) as [x|] eqn:Hfind; [|done].
      apply find_some in Hfind as [Hin Hsel].
      apply list_elem_of_In, Habsent in Hin.
      assert (_jtc_name after = Some jtc_name) as Hafter by done.
      unfold is_selected in Hsel. rewrite Hafter in Hsel.
      by apply String.eqb_eq in Hsel. }
    by erewrite bind_raise.
  - unfold after, unloaded, bound.
    destruct (enable_button s); [destruct (selected s)|]; done.
Qed.

(** C5 on the bound sample session and a name the listing lacks. *)
Lemma on_jtc_change_absent_example :
  _on_jtc_change [arm] "ghost" monitoring
  = (Raise StopIteration, set_jtc_name (Some "ghost") (unloaded monitoring))
  ∧ bound (set_jtc_name (Some "ghost") (unloaded monitoring)) = false.
Proof.
  destruct (on_jtc_change_absent [arm] "ghost" monitoring)
    as (Hrun & Hbound & _).
  - reflexivity.
  - intros c Hc. change (c ∈ [arm]) in Hc.
    apply list_elem_of_singleton in Hc as ->. discriminate.
  - split; [exact Hrun|exact Hbound].
Defined.

(** ** The joint-limit cache *)

Lemma on_jtc_enabled_cache val : preserves cache_view (_on_jtc_enabled val).
Proof.
  intros s. rewrite on_jtc_enabled_run. unfold switched.
  destruct (selected s); [|done].
  destruct (joint_group s); [|done]. by destruct val.
Qed.

#[local] Hint Resolve on_jtc_enabled_cache : frame.

Lemma handle_cache_other e :
  match e with
  | CmChange _ _ _ | JtcListTimer _ _ => True
  | _ => preserves cache_view (handle e)
  end.
Proof. destruct e; try done; simpl; frame. Qed.

Lemma update_jtc_list_cache snapshot get_joint_limits s :
  size (_robot_joint_limits s) ≠ 0 →
  cache_view (_update_jtc_list snapshot get_joint_limits s).2
  = cache_view s.
Proof.
  intros Hsize.
  destruct (_list_controllers s) as [lister|] eqn:Hl.
  - rewrite update_jtc_list_run by (by rewrite Hl).
    unfold discovered.
    rewrite (bool_decide_eq_false_2 (size (_robot_joint_limits s) = 0))
      by done.
    by rewrite andb_false_r.
  - unfold _update_jtc_list. unfold_M. by rewrite Hl.
Qed.

Lemma step_cache e s :
  size (_robot_joint_limits s) ≠ 0 → cache_view (step s e) = cache_view s.
Proof.
  intros Hsize. pose proof (handle_cache_other e) as Hother.
  unfold step. destruct e; try apply Hother; simpl.
  - unfold _on_cm_change. unfold_M. simpl.
    destruct (truthy cm_ns); [|done]. simpl.
    by rewrite update_jtc_list_cache.
  - by apply update_jtc_list_cache.
Qed.

(** C4: once the joint-limit cache holds an entry, no sequence of
    events, whether discovery cycles, controller or controller-manager
    selections, clicks, feedback or timer ticks, looks limits up again or
    changes the cache: it is the same mapping after the events, and the
    trace of lookups is as long as before. *)
Theorem cache_filled_once (events : list event) (s : Plugin) :
  size (_robot_joint_limits s) ≠ 0 →
  _robot_joint_limits (run events s) = _robot_joint_limits s
  ∧ limit_lookups (run events s) = limit_lookups s.
Proof.
  revert s. induction events as [|e events IH]; intros s Hsize; [done|].
  simpl. pose proof (step_cache e s Hsize) as Hstep.
  injection Hstep as Hlimits Hlookups.
  destruct (IH (step s e)) as [-> ->]; [by rewrite Hlimits|done].
Qed.

(** C4 on the bound sample session: another controller manager with
    other controllers, a discovery cycle and a reselection later, the
    cache is the one of the first lookup, which was the only one. *)
Lemma cache_filled_once_example :
  let events :=
    [CmChange "/other/controller_manager" [wrist ["j9/position"]]
       stiff_limits;
     JtcListTimer [wrist ["j9/position"]; arm] stiff_limits;
     JtcChange "wrist" [wrist ["j9/position"]]] in
  _robot_joint_limits (run events monitoring)
  = _robot_joint_limits monitoring
  ∧ limit_lookups (run events monitoring) = limit_lookups monitoring.
Proof. apply cache_filled_once. vm_compute. discriminate. Defined.

(** ** The mode invariant *)

Lemma handle_mode_other e :
  match e with
  | Toggle _ | JtcChange _ _ => True
  | _ => preserves mode_view (handle e)
  end.
Proof. destruct e; try done; simpl; frame. Qed.

Lemma load_joint_data_mode snapshot :
  preserves mode_view (load_joint_data snapshot).
Proof. frame. Qed.

Lemma mode_view_switched val rows s :
  mode_view (switched val rows s)
  = (selected s, enable_button s, val, negb val, true, bound s).
Proof. unfold switched. by destruct val. Qed.

Lemma mode_view_connected ns val rows s :
  mode_view (connected ns (switched val rows s))
  = (selected s, enable_button s, val, negb val, true, true).
Proof. unfold switched. by destruct val. Qed.

Lemma mode_view_unloaded jtc_name s :
  mode_view (set_jtc_name (Some jtc_name) (unloaded s))
  = (truthy jtc_name, false,
     if enable_button s && selected s then false else _update_cmd_timer s,
     if enable_button s && selected s then true
     else _update_act_pos_timer s,
     true, false).
Proof.
  unfold unloaded.
  destruct (enable_button s) eqn:Hb; [destruct (selected s)|]; simpl;
    unfold mode_view; simpl; by rewrite ?Hb.
Qed.

(** Where binding can stop, seen through the mode: before the switch to
    monitor mode, after it without the ROS interfaces, or at the end. *)
Lemma load_jtc_mode snapshot s :
  selected s = true → has_layout s = true →
  mode_view (_load_jtc snapshot s).2 = mode_view s
  ∨ mode_view (_load_jtc snapshot s).2
    = (true, enable_button s, false, true, true, bound s)
  ∨ mode_view (_load_jtc snapshot s).2
    = (true, enable_button s, false, true, true, true).
Proof.
  intros Hsel Hlay. unfold _load_jtc.
  pose proof (load_joint_data_mode snapshot s) as H1.
  destruct (load_joint_data snapshot s) as [[[]|e] s1] eqn:Hload;
    simpl in H1; [|left; by erewrite bind_raise].
  erewrite bind_ok by exact Hload.
  destruct (update_joint_display_run s1) as [Hr2 H2].
  destruct (update_joint_display s1) as [r2 s2] eqn:Hdisp.
  simpl in Hr2, H2. subst r2.
  erewrite bind_ok by exact Hdisp.
  assert (mode_view s2 = mode_view s) as Hv.
  { by rewrite <- H1, <- (mode_view_forget_rows s2), H2,
       mode_view_forget_rows. }
  assert (selected s2 = true ∧ has_layout s2 = true
          ∧ enable_button s2 = enable_button s ∧ bound s2 = bound s)
    as (Hsel2 & Hlay2 & Hb2 & Hbound2).
  { unfold mode_view in Hv.
    inversion Hv as [[Ha Hb Hc Hd He Hf]].
    repeat split; try done; by etrans. }
  assert (∃ rows, _on_jtc_enabled false s2
                  = (Ok tt, switched false rows s2)) as [rows Hsw].
  { rewrite on_jtc_enabled_run, Hsel2. unfold has_layout in Hlay2.
    destruct (joint_group s2) as [rows|]; [by eexists|done]. }
  erewrite bind_ok by exact Hsw.
  rewrite setup_ros_interfaces_run.
  destruct (resolved_ns _) as [ns|e]; unfold snd.
  - right. right. by rewrite mode_view_connected, Hsel2, Hb2.
  - right. left. by rewrite mode_view_switched, Hsel2, Hb2, Hbound2.
Qed.

Ltac mode_cases s :=
  destruct (selected s), (enable_button s), (_update_cmd_timer s),
    (_update_act_pos_timer s), (has_layout s), (bound s); try done.

Lemma step_mode e s :
  mode_ok (mode_view s) = true → mode_ok (mode_view (step s e)) = true.
Proof.
  intros Hok. pose proof (handle_mode_other e) as Hother.
  unfold step. destruct e; try (by rewrite Hother); clear Hother;
    unfold handle.
  - rewrite user_toggle_run.
    destruct (Bool.eqb (enable_button s) val) eqn:Hval; [done|].
    rewrite on_jtc_enabled_run.
    change (selected (set_enable_button val s)) with (selected s).
    change (joint_group (set_enable_button val s)) with (joint_group s).
    unfold mode_view in Hok.
    pose proof (eq_refl (has_layout s)) as Hlay.
    unfold has_layout at 1 in Hlay.
    destruct (selected s) eqn:Hsel.
    + destruct (joint_group s) as [rows|]; cbn [snd].
      * rewrite mode_view_switched.
        change (selected (set_enable_button val s)) with (selected s).
        change (enable_button (set_enable_button val s)) with val.
        change (bound (set_enable_button val s)) with (bound s).
        rewrite Hsel. by destruct val, (bound s).
      * rewrite <- Hlay in Hok.
        destruct (enable_button s), (_update_cmd_timer s),
          (_update_act_pos_timer s), (bound s); done.
    + cbn [snd].
      change (mode_view (set_enable_button false (set_enable_button val s)))
        with (selected s, false, _update_cmd_timer s,
              _update_act_pos_timer s, has_layout s, bound s).
      rewrite Hsel. clear Hval Hlay. mode_cases s.
  - rewrite on_jtc_change_run.
    pose proof (mode_view_unloaded jtc_name s) as Hu.
    set (su := set_jtc_name (Some jtc_name) (unloaded s)) in *.
    unfold mode_view in Hok.
    destruct (truthy jtc_name) eqn:Hn.
    + assert (selected su = true ∧ has_layout su = true
              ∧ enable_button su = false ∧ bound su = false)
        as (Hsel & Hlay & Hb & Hbound).
      { unfold mode_view in Hu.
        inversion Hu as [[Ha Hb Hc Hd He Hf]]. done. }
      destruct (load_jtc_mode snapshot su Hsel Hlay) as [->|[->| ->]];
        rewrite ?Hu, ?Hb, ?Hbound; clear Hu Hsel Hlay Hb Hbound;
        mode_cases s.
    + cbn [snd]. rewrite Hu. clear Hu. mode_cases s.
Qed.

Lemma run_mode events s :
  mode_ok (mode_view s) = true → mode_ok (mode_view (run events s)) = true.
Proof.
  revert s. induction events as [|e events IH]; intros s Hok; [done|].
  simpl. by apply IH, step_mode.
Qed.

(** C1, where the claim fails: the sample session is bound, in monitor
    mode; after the controller is deselected no session is bound and no
    controller is selected, yet the widget-refresh timer is still
    active. *)
Lemma refresh_timer_survives_unbind :
  let unbound := run [JtcChange "" [arm]] monitoring in
  bound monitoring = true
  ∧ _update_act_pos_timer monitoring = true
  ∧ bound unbound = false
  ∧ selected unbound = false
  ∧ _update_cmd_timer unbound = false
  ∧ _update_act_pos_timer unbound = true.
Proof. vm_compute. repeat split; reflexivity. Qed.

(** C1, as the code has it: after any sequence of events from start-up,
    the command timer and the widget-refresh timer are never both
    active; while a session is bound exactly one of them is; while no
    controller is selected the command timer is inactive; and unbinding
    a bound session leaves the refresh timer active and the command
    timer inactive (monitor mode is enforced, not switched off). *)
Theorem mode_invariant (events : list event)
    (joint_layout : option (list JointWidget)) (speed_scale : float) :
  let s := run events (init joint_layout speed_scale) in
  _update_cmd_timer s && _update_act_pos_timer s = false
  ∧ (bound s = true →
     xorb (_update_cmd_timer s) (_update_act_pos_timer s) = true)
  ∧ (selected s = false → _update_cmd_timer s = false)
  ∧ (∀ snapshot, bound s = true →
       let unbound := step s (JtcChange "" snapshot) in
       bound unbound = false
       ∧ selected unbound = false
       ∧ _update_cmd_timer unbound = false
       ∧ _update_act_pos_timer unbound = true).
Proof.
  intros s.
  assert (mode_ok (mode_view s) = true) as Hok.
  { apply run_mode. unfold mode_view, init, has_layout. simpl.
    by destruct joint_layout. }
  split; [|split; [|split]].
  - unfold mode_view in Hok. mode_cases s.
  - intros Hb. unfold mode_view in Hok. rewrite Hb in Hok. mode_cases s.
  - intros Hs. unfold mode_view in Hok. rewrite Hs in Hok. mode_cases s.
  - intros snapshot Hb unbound.
    pose proof (mode_view_unloaded "" s) as Hu.
    assert (unbound = set_jtc_name (Some "") (unloaded s)) as Hun.
    { unfold unbound, step, handle. by rewrite on_jtc_change_run. }
    rewrite <- Hun in Hu. unfold mode_view in Hu, Hok.
    pose proof (f_equal (λ v, v.2) Hu) as Hg.
    pose proof (f_equal (λ v, v.1.1.1.1.1) Hu) as Ha.
    pose proof (f_equal (λ v, v.1.1.1.2) Hu) as Hd.
    pose proof (f_equal (λ v, v.1.1.2) Hu) as He.
    simpl in Hg, Ha, Hd, He. clear Hu Hun.
    split; [exact Hg|]. split; [exact Ha|].
    split; (etrans; [eassumption|]); clear Ha Hd He Hg;
      rewrite Hb in Hok; clear Hb;
      destruct (selected s), (enable_button s), (_update_cmd_timer s),
        (_update_act_pos_timer s), (has_layout s); done.
Qed.

(** C1 on the sample session switched to control mode: exactly one timer
    is active, and it is the command timer. *)
Lemma mode_invariant_example :
  let s := run [CmChange "/controller_manager" [arm] urdf_limits;
                JtcChange "arm" [arm]; Toggle true] (init None 1%float) in
  bound s = true
  ∧ xorb (_update_cmd_timer s) (_update_act_pos_timer s) = true
  ∧ _update_cmd_timer s = true.
Proof.
  intros s. split; [reflexivity|]. split; [|reflexivity].
  apply (mode_invariant
           [CmChange "/controller_manager" [arm] urdf_limits;
            JtcChange "arm" [arm]; Toggle true] None 1%float).
  reflexivity.
Defined.

(** * Further properties of the plugin's methods *)

(** ** The enable button *)

(** X1: a click on the enable button while no controller is selected is
    refused: the slot unchecks the button again, and every attribute is
    as it was before the click. *)
Theorem enable_refused_without_selection (s : Plugin) :
  selected s = false → enable_button s = false →
  user_toggle true s = (Ok tt, s).
Proof.
  intros Hsel Hb. rewrite user_toggle_run, Hb. simpl.
  rewrite on_jtc_enabled_run.
  change (selected (set_enable_button true s)) with (selected s).
  rewrite Hsel. destruct s. simpl in *. by subst.
Qed.

(** X1 at start-up. *)
Lemma enable_refused_without_selection_example :
  user_toggle true (init None 1%float) = (Ok tt, init None 1%float).
Proof. apply enable_refused_without_selection; reflexivity. Defined.

(** X2: the slot of the enable button unchecks the button itself when no
    controller is selected, which runs the slot once more and no further:
    two levels of nesting are enough whatever the attributes, more
    change nothing, and with one level only a checked button without a
    selection would not be handled. *)
Theorem enable_slot_nests_once (n : nat) (val : bool) (s : Plugin) :
  on_jtc_enabled_fuel (S (S n)) val s = on_jtc_enabled_fuel 2 val s
  ∧ (on_jtc_enabled_fuel 2 val s).1 ≠ Raise RecursionError
  ∧ (selected s = false → enable_button s = true →
     (on_jtc_enabled_fuel 1 val s).1 = Raise RecursionError).
Proof.
  split; [apply on_jtc_enabled_total|].
  split; [apply (on_jtc_enabled_total 0)|].
  intros Hsel Hb. unfold on_jtc_enabled_fuel, setChecked. unfold_M.
  unfold selected in Hsel. rewrite Hsel. cbn. by rewrite Hb.
Qed.

(** X3: in a session with a selected controller and a joint layout,
    enabling and then disabling ends in monitor mode: command timer
    stopped, refresh timer running, every joint editor and the speed
    scaling disabled, and nothing else touched. *)
Theorem enable_disable_round_trip (rows : list JointWidget) (s : Plugin) :
  selected s = true → joint_group s = Some rows → enable_button s = false →
  run [Toggle true; Toggle false] s = switched false rows s.
Proof.
  intros Hsel Hrows Hb.
  assert (step s (Toggle true)
          = switched true rows (set_enable_button true s)) as H1.
  { unfold step, handle. rewrite user_toggle_run, Hb. simpl Bool.eqb.
    cbv iota. rewrite on_jtc_enabled_run.
    change (selected (set_enable_button true s)) with (selected s).
    change (joint_group (set_enable_button true s)) with (joint_group s).
    by rewrite Hsel, Hrows. }
  unfold run, fold_left. rewrite H1. unfold step, handle.
  rewrite user_toggle_run. simpl Bool.eqb. cbv iota.
  rewrite on_jtc_enabled_run.
  change (selected (set_enable_button false
                      (switched true rows (set_enable_button true s))))
    with (selected s).
  rewrite Hsel. cbn [snd]. unfold switched.
  destruct s. simpl in *. subst. rewrite map_map.
  vm_compute. reflexivity.
Qed.

(** X3 on the bound sample session. *)
Lemma enable_disable_round_trip_example :
  _update_cmd_timer (run [Toggle true; Toggle false] monitoring) = false
  ∧ _update_act_pos_timer (run [Toggle true; Toggle false] monitoring)
    = true
  ∧ _joint_pos (run [Toggle true; Toggle false] monitoring)
    = _joint_pos monitoring.
Proof.
  assert (∃ rows, joint_group monitoring = Some rows) as [rows Hrows]
    by (vm_compute; by eexists).
  rewrite (enable_disable_round_trip rows monitoring eq_refl Hrows eq_refl).
  split; [|split]; vm_compute; reflexivity.
Defined.

(** ** Unloading *)

(** X4: unloading never raises, whatever state the plugin is in, and
    leaves no session behind: no publisher, no subscription, no executor,
    no connected slot, no joints, no runtime state, an empty joint
    layout and an unchecked enable button. The selected names, the
    joint-limit cache, the speed scale and what was published stay. *)
Theorem unload_tears_down (s : Plugin) :
  let after := (_unload_jtc s).2 in
  (_unload_jtc s).1 = Ok tt
  ∧ _cmd_pub after = None ∧ _state_sub after = None
  ∧ _executor after = false ∧ jointStateChanged after = false
  ∧ _joint_names after = [] ∧ _joint_pos after = ∅
  ∧ joint_group after = Some [] ∧ enable_button after = false
  ∧ _jtc_name after = _jtc_name s ∧ _cm_ns after = _cm_ns s
  ∧ _robot_joint_limits after = _robot_joint_limits s
  ∧ _speed_scale after = _speed_scale s
  ∧ published after = published s.
Proof.
  rewrite unload_jtc_run. cbn [fst snd]. unfold unloaded.
  destruct (enable_button s) eqn:Hb; [destruct (selected s)|];
    cbn; by rewrite ?Hb.
Qed.

(** X5: unloading twice is unloading once: the second call finds nothing
    to tear down and changes nothing. *)
Theorem unload_idempotent (s : Plugin) :
  _unload_jtc (_unload_jtc s).2 = (Ok tt, (_unload_jtc s).2).
Proof.
  rewrite !unload_jtc_run. cbn [snd]. f_equal.
  destruct s as [jn cm jp jns lim sc ct at_ eb sse jg combo lc cp ss ex
                   conn pub lk].
  destruct eb, jn as [[|c jn]|]; vm_compute; reflexivity.
Qed.

(** ** Binding a controller *)

Lemma add_joint_row_loop (l : list string) rows s :
  joint_group s = Some rows →
  (for_each l add_joint_row s).2
  = set_joint_group (Some (rows ++ rows_for (_robot_joint_limits s) l)) s.
Proof.
  revert rows s. induction l as [|x l IH]; intros rows s Hrows.
  - simpl. rewrite app_nil_r. destruct s. simpl in *. by subst.
  - simpl rows_for.
    destruct (_robot_joint_limits s !! x) as [limits|] eqn:Hlim.
    + assert (add_joint_row x s
              = (Ok tt, set_joint_group
                          (Some (rows ++ [joint_row x limits])) s)) as Hstep.
      { unfold add_joint_row, addRow. unfold_M. by rewrite Hlim, Hrows. }
      simpl for_each. erewrite bind_ok by exact Hstep.
      rewrite (IH (rows ++ [joint_row x limits])) by done.
      by rewrite <- app_assoc.
    + assert (add_joint_row x s = (Raise (KeyError x), s)) as Hstep.
      { unfold add_joint_row. unfold_M. by rewrite Hlim. }
      simpl for_each. erewrite bind_raise by exact Hstep.
      rewrite app_nil_r. destruct s. simpl in *. by subst.
Qed.

(** "Update joint display" adds to the joint layout one editor row per
    joint, in joint order, and stops without an error at the first joint
    the cache has no limits for; without a layout it changes nothing. *)
Lemma update_joint_display_rows (s : Plugin) :
  update_joint_display s
  = (Ok tt,
     match joint_group s with
     | Some rows =>
         set_joint_group
           (Some (rows ++ rows_for (_robot_joint_limits s) (_joint_names s)))
           s
     | None => s
     end).
Proof.
  unfold update_joint_display, try_except. f_equal.
  unfold mbind at 1, M_bind, bind at 1, get.
  destruct (joint_group s) as [rows|] eqn:Hrows.
  - by apply add_joint_row_loop.
  - destruct (_joint_names s) as [|x l]; [done|].
    assert (∃ e, add_joint_row x s = (Raise e, s)) as [e Hstep].
    { unfold add_joint_row, addRow. unfold_M.
      destruct (_robot_joint_limits s !! x); rewrite ?Hrows; by eexists. }
    simpl for_each. by erewrite bind_raise.
Qed.

Lemma init_entries_lookup (names : list string)
    (m : gmap string JointRuntimeState) j :
  fold_left (λ m n, <[n := empty_entry]> m) names m !! j
  = if bool_decide (j ∈ names) then Some empty_entry else m !! j.
Proof.
  revert m. induction names as [|x l IH]; intros m.
  - by rewrite bool_decide_eq_false_2 by apply not_elem_of_nil.
  - simpl fold_left. rewrite IH. destruct (decide (j = x)) as [->|Hne].
    + rewrite (bool_decide_eq_true_2 (x ∈ x :: l)) by by left.
      rewrite lookup_insert_eq. by case_bool_decide.
    + rewrite lookup_insert_ne by done.
      assert (j ∈ x :: l ↔ j ∈ l) as Hiff by (rewrite elem_of_cons; tauto).
      by rewrite (bool_decide_ext _ _ Hiff).
Qed.

Lemma unloaded_fields jtc_name s :
  let su := set_jtc_name (Some jtc_name) (unloaded s) in
  _jtc_name su = Some jtc_name
  ∧ _list_controllers su = _list_controllers s
  ∧ _cm_ns su = _cm_ns s
  ∧ joint_group su = Some []
  ∧ _joint_pos su = ∅
  ∧ _robot_joint_limits su = _robot_joint_limits s
  ∧ published su = published s
  ∧ enable_button su = false.
Proof.
  unfold unloaded.
  destruct (enable_button s) eqn:Hb; [destruct (selected s)|];
    cbn; by rewrite ?Hb.
Qed.

Lemma find_is_selected jtc_name (l : list ControllerInfo) s :
  _jtc_name s = Some jtc_name →
  List.find (is_selected s) l
  = List.find (λ c, String.eqb (name c) jtc_name) l.
Proof.
  intros Hn. induction l as [|c l IH]; simpl; [done|].
  unfold is_selected at 1. rewrite Hn.
  by destruct (String.eqb (name c) jtc_name).
Qed.

(** What a successful [_on_jtc_change] leaves behind, step by step. *)
Lemma on_jtc_change_bound snapshot jtc_name s x lister cm_ns :
  truthy jtc_name = true →
  _list_controllers s = Some lister →
  _cm_ns s = Some cm_ns →
  List.find (λ c, String.eqb (name c) jtc_name)
    (running_controllers snapshot) = Some x →
  ∃ jtc_ns,
    _resolve_controller_ns cm_ns jtc_name = Ok jtc_ns
    ∧ _on_jtc_change snapshot jtc_name s
      = (Ok tt,
         connected jtc_ns
           (switched false
              (rows_for (_robot_joint_limits s) (_jtc_joint_names x))
              (set_joint_group
                 (Some (rows_for (_robot_joint_limits s)
                          (_jtc_joint_names x)))
                 (with_joints (_jtc_joint_names x)
                    (set_jtc_name (Some jtc_name) (unloaded s)))))).
Proof.
  intros Hn Hl Hcm Hfind.
  assert (∃ jtc_ns, _resolve_controller_ns cm_ns jtc_name = Ok jtc_ns)
    as [jtc_ns Hns].
  { unfold _resolve_controller_ns. rewrite Hn. by eexists. }
  exists jtc_ns. split; [done|].
  rewrite on_jtc_change_run, Hn.
  destruct (unloaded_fields jtc_name s)
    as (Hname & Hl' & Hcm' & Hrows & Hpos & Hlim & _ & Hb).
  set (su := set_jtc_name (Some jtc_name) (unloaded s)) in *.
  unfold _load_jtc.
  erewrite bind_ok; last first.
  { rewrite load_joint_data_run, Hl', Hl.
    by rewrite (find_is_selected jtc_name _ su Hname), Hfind. }
  set (s1 := with_joints (_jtc_joint_names x) su).
  erewrite bind_ok; last first.
  { rewrite update_joint_display_rows.
    change (joint_group s1) with (joint_group su).
    change (_robot_joint_limits s1) with (_robot_joint_limits su).
    change (_joint_names s1) with (_jtc_joint_names x).
    by rewrite Hrows, Hlim. }
  simpl app.
  set (rows := rows_for (_robot_joint_limits s) (_jtc_joint_names x)).
  set (s2 := set_joint_group (Some rows) s1).
  erewrite bind_ok; last first.
  { rewrite on_jtc_enabled_run.
    change (selected s2) with (truthy jtc_name).
    change (joint_group s2) with (Some rows). by rewrite Hn. }
  rewrite setup_ros_interfaces_run.
  assert (resolved_ns (switched false rows s2) = Ok jtc_ns) as ->; [|done].
  unfold resolved_ns.
  change (_jtc_name (switched false rows s2)) with (Some jtc_name).
  change (_cm_ns (switched false rows s2)) with (_cm_ns su).
  by rewrite Hcm', Hcm.
Qed.

(** X6: selecting a running controller while a controller manager is
    chosen binds it and leaves the plugin in monitor mode, whatever state
    it was in before: joints in the controller's joint order, an empty
    runtime-state entry for each joint and for no other, the command
    timer stopped, the refresh timer running, the enable button
    unchecked, one disabled editor row per joint up to the first joint
    without limits, the subscription on [<ns>/controller_state] and the
    publisher on [<ns>/joint_trajectory] of the resolved namespace, and
    nothing published. *)
Theorem bind_enters_monitor_mode (snapshot : list ControllerInfo)
    (jtc_name : string) (s : Plugin) (x : ControllerInfo)
    (lister cm_ns : string) :
  truthy jtc_name = true →
  _list_controllers s = Some lister →
  _cm_ns s = Some cm_ns →
  List.find (λ c, String.eqb (name c) jtc_name)
    (running_controllers snapshot) = Some x →
  let after := (_on_jtc_change snapshot jtc_name s).2 in
  (_on_jtc_change snapshot jtc_name s).1 = Ok tt
  ∧ _jtc_name after = Some jtc_name
  ∧ _joint_names after = _jtc_joint_names x
  ∧ (∀ joint, _joint_pos after !! joint
              = if bool_decide (joint ∈ _jtc_joint_names x)
                then Some empty_entry else None)
  ∧ _update_cmd_timer after = false
  ∧ _update_act_pos_timer after = true
  ∧ enable_button after = false
  ∧ joint_group after
    = Some (map (setEnabled false)
              (rows_for (_robot_joint_limits s) (_jtc_joint_names x)))
  ∧ (∃ jtc_ns,
       _resolve_controller_ns cm_ns jtc_name = Ok jtc_ns
       ∧ _state_sub after = Some (jtc_ns +:+ "/controller_state")
       ∧ _cmd_pub after = Some (jtc_ns +:+ "/joint_trajectory"))
  ∧ jointStateChanged after = true
  ∧ _executor after = true
  ∧ published after = published s.
Proof.
  intros Hn Hl Hcm Hfind after.
  destruct (on_jtc_change_bound snapshot jtc_name s x lister cm_ns
              Hn Hl Hcm Hfind) as (jtc_ns & Hns & Hrun).
  destruct (unloaded_fields jtc_name s)
    as (_ & _ & _ & _ & Hpos & _ & Hpub & Hb).
  subst after. rewrite Hrun. cbn [fst snd].
  split; [done|]. split; [done|]. split; [done|]. split.
  { intros joint.
    change (_joint_pos (connected _ _))
      with (fold_left (λ m n, <[n := empty_entry]> m) (_jtc_joint_names x)
              (_joint_pos (set_jtc_name (Some jtc_name) (unloaded s)))).
    by rewrite init_entries_lookup, Hpos, lookup_empty. }
  split; [done|]. split; [done|]. split; [exact Hb|]. split; [done|].
  split; [by exists jtc_ns|]. split; [done|]. split; [done|]. exact Hpub.
Qed.

(** X6 on the sample controller [arm] under [/controller_manager]. *)
Lemma bind_enters_monitor_mode_example :
  (_on_jtc_change [arm] "arm" listing).1 = Ok tt
  ∧ _joint_names (_on_jtc_change [arm] "arm" listing).2 = ["j1"; "j2"]
  ∧ _update_act_pos_timer (_on_jtc_change [arm] "arm" listing).2 = true
  ∧ _update_cmd_timer (_on_jtc_change [arm] "arm" listing).2 = false.
Proof.
  destruct (bind_enters_monitor_mode [arm] "arm" listing arm
              "/controller_manager" "/controller_manager")
    as (Hok & _ & Hnames & _ & Hcmd & Hact & _); try reflexivity.
  split; [exact Hok|]. split; [exact Hnames|]. split; [exact Hact|exact Hcmd].
Defined.

(** ** Feedback *)

(** X7: feedback that arrives while no slot is connected to
    [jointStateChanged] (before the first binding, and after unloading)
    changes no attribute, whatever the report holds. *)
Theorem feedback_without_session (msg : ControllerState) (s : Plugin) :
  jointStateChanged s = false → (_state_cb msg s).2 = s.
Proof.
  intros Hconn. rewrite state_cb_unfold.
  destruct (zip_positions _ _ _) as [current_pos|e]; [|done].
  unfold emit_jointStateChanged. unfold_M. by rewrite Hconn.
Qed.

(** X7 on the sample session once it is unloaded. *)
Lemma feedback_without_session_example :
  (_state_cb {| msg_joint_names := ["j1"; "j2"];
                msg_feedback_positions := [0.5%float; 0.25%float] |}
     (_unload_jtc monitoring).2).2
  = (_unload_jtc monitoring).2.
Proof. apply feedback_without_session. vm_compute. reflexivity. Defined.

Lemma store_position_command current_pos name joint :
  preserves (command_of joint) (store_position current_pos name).
Proof.
  intros s. unfold command_of, store_position. unfold_M.
  destruct (dict_get current_pos name) as [v|e]; [|done]. simpl.
  destruct (_joint_pos s !! name) as [entry|] eqn:Hentry; [|done]. simpl.
  unfold joint_command. simpl.
  destruct (decide (joint = name)) as [->|Hne].
  - by rewrite lookup_insert_eq, Hentry.
  - by rewrite lookup_insert_ne.
Qed.

(** X8: no feedback report, accepted or not, ever changes a command the
    user has set (or sets one): the command of every joint is the same
    before and after the callback, even when the update fails half
    way. *)
Theorem feedback_keeps_commands (msg : ControllerState) (s : Plugin)
    (joint : string) :
  joint_command (_state_cb msg s).2 joint = joint_command s joint.
Proof.
  revert s. change (preserves (command_of joint) (_state_cb msg)).
  unfold _state_cb.
  apply preserves_bind; [unfold state_cb_body, index; frame|intros d].
  unfold emit_jointStateChanged.
  apply preserves_bind; [frame|intros s'].
  destruct (jointStateChanged s'); [|frame].
  unfold _on_joint_state_change.
  apply preserves_bind; [frame|intros s''].
  destruct (bool_decide _); [|frame].
  apply preserves_for_each. intros name. apply store_position_command.
Qed.

Lemma dict_get_set_eq d k v : dict_get (dict_set d k v) k = Ok v.
Proof.
  induction d as [|[k' v'] d IH]; simpl.
  - by rewrite String.eqb_refl.
  - destruct (String.eqb k' k) eqn:Hk; simpl; by rewrite Hk.
Qed.

Lemma dict_get_set_ne d k k' v :
  k ≠ k' → dict_get (dict_set d k v) k' = dict_get d k'.
Proof.
  intros Hne. induction d as [|[k0 v0] d IH]; simpl.
  - by apply String.eqb_neq in Hne as ->.
  - destruct (String.eqb k0 k) eqn:Hk; simpl; [|by rewrite IH].
    apply String.eqb_eq in Hk as ->. by apply String.eqb_neq in Hne as ->.
Qed.

Lemma dict_set_keys d k v :
  k ∉ map fst d → map fst (dict_set d k v) = map fst d ++ [k].
Proof.
  induction d as [|[k0 v0] d IH]; simpl; [done|].
  intros Hnot. apply not_elem_of_cons in Hnot as [Hne Hnot].
  destruct (String.eqb k0 k) eqn:Hk.
  - apply String.eqb_eq in Hk. by subst.
  - simpl. by rewrite IH.
Qed.

(** The dict built from a report with distinct joint names: its keys are
    the names, each with the position at the same index. *)
Lemma zip_positions_spec names positions current_pos :
  length names ≤ length positions → NoDup names →
  (∀ n, n ∈ names → n ∉ map fst current_pos) →
  ∃ d, zip_positions names positions current_pos = Ok d
       ∧ map fst d = map fst current_pos ++ names
       ∧ (∀ i n p, names !! i = Some n → positions !! i = Some p →
            dict_get d n = Ok p)
       ∧ ∀ k, k ∉ names → dict_get d k = dict_get current_pos k.
Proof.
  revert positions current_pos.
  induction names as [|n names IH]; intros positions acc Hlen Hnd Hfresh.
  - exists acc. simpl. rewrite app_nil_r. by repeat split.
  - destruct positions as [|p positions]; [simpl in Hlen; lia|].
    apply NoDup_cons in Hnd as [Hn Hnd]. simpl.
    assert (n ∉ map fst acc) as Hnacc by (apply Hfresh; by left).
    destruct (IH positions (dict_set acc n p)) as (d & Hd & Hkeys & Hget & Hother).
    { simpl in Hlen. lia. }
    { done. }
    { intros m Hm. rewrite dict_set_keys by done.
      rewrite elem_of_app, list_elem_of_singleton.
      intros [Hin| ->]; [|done]. eapply Hfresh; [by right|done]. }
    exists d. split; [done|]. split.
    { rewrite Hkeys, dict_set_keys by done. by rewrite <- app_assoc. }
    split.
    + intros [|i] m q Hm Hq; simpl in *.
      * injection Hm as <-. injection Hq as <-.
        rewrite Hother by done. apply dict_get_set_eq.
      * by eapply Hget.
    + intros k Hk. apply not_elem_of_cons in Hk as [Hne Hk].
      rewrite Hother by done. by apply dict_get_set_ne.
Qed.

(** X9: a report that names each joint of the bound session once, with
    at least as many positions as names, is stored: the callback
    returns, only [_joint_pos] changes, every joint gets the position at
    its index in the report and keeps its command. *)
Theorem feedback_stores_positions (msg : ControllerState) (s : Plugin) :
  jointStateChanged s = true →
  NoDup (msg_joint_names msg) →
  length (msg_joint_names msg) ≤ length (msg_feedback_positions msg) →
  length (msg_joint_names msg) = size (_joint_pos s) →
  (∀ n, n ∈ msg_joint_names msg → is_Some (_joint_pos s !! n)) →
  ∃ table,
    _state_cb msg s = (Ok tt, set_joint_pos table s)
    ∧ (∀ i n p entry,
         msg_joint_names msg !! i = Some n →
         msg_feedback_positions msg !! i = Some p →
         _joint_pos s !! n = Some entry →
         table !! n
         = Some {| position := Some p; command := command entry |})
    ∧ ∀ n, n ∉ msg_joint_names msg → table !! n = _joint_pos s !! n.
Proof.
  intros Hconn Hnd Hlen Hsize Hknown.
  destruct (zip_positions_spec (msg_joint_names msg)
              (msg_feedback_positions msg) [] Hlen Hnd)
    as (d & Hd & Hkeys & Hget & Hother).
  { intros n _. apply not_elem_of_nil. }
  simpl in Hkeys.
  destruct (store_position_loop d (map fst d) s) as (table & Hrun & Htable).
  { intros n Hn. split; [|done]. apply Hknown. by rewrite <- Hkeys. }
  exists table. split; [|split].
  - rewrite state_cb_unfold, Hd.
    unfold emit_jointStateChanged, try_except, _on_joint_state_change.
    unfold_M.
    rewrite Hconn, bool_decide_eq_true_2; [by rewrite Hrun|].
    by rewrite <- Hsize, <- Hkeys, length_map.
  - intros i n p entry Hn Hp Hentry. rewrite Htable, Hkeys.
    rewrite bool_decide_eq_true_2 by (by eapply list_elem_of_lookup_2).
    rewrite Hentry. simpl. unfold updated_entry.
    by rewrite (Hget i n p Hn Hp).
  - intros n Hn. rewrite Htable, Hkeys. by rewrite bool_decide_eq_false_2.
Qed.

(** X9 on the bound sample session. *)
Lemma feedback_stores_positions_example :
  ∃ table,
    _state_cb {| msg_joint_names := ["j2"; "j1"];
                 msg_feedback_positions := [0.25%float; 0.5%float] |}
      monitoring
    = (Ok tt, set_joint_pos table monitoring)
    ∧ table !! "j1" = Some {| position := Some 0.5%float; command := None |}.
Proof.
  destruct (feedback_stores_positions
              {| msg_joint_names := ["j2"; "j1"];
                 msg_feedback_positions := [0.25%float; 0.5%float] |}
              monitoring) as (table & Hrun & Hset & _).
  - vm_compute. reflexivity.
  - simpl. repeat constructor; set_solver.
  - simpl. lia.
  - vm_compute. reflexivity.
  - intros n Hn. simpl in Hn.
    apply elem_of_cons in Hn as [->|Hn]; [vm_compute; eauto|].
    apply list_elem_of_singleton in Hn as ->. vm_compute. eauto.
  - exists table. split; [exact Hrun|].
    apply (Hset 1 "j1" 0.5%float empty_entry); vm_compute; reflexivity.
Defined.

(** ** Commands *)



Lemma on_jtc_enabled_published val : preserves published (_on_jtc_enabled val).
Proof.
  intros s. rewrite on_jtc_enabled_run. unfold switched.
  destruct (selected s); [|done].
  destruct (joint_group s); [|done]. by destruct val.
Qed.

#[local] Hint Resolve on_jtc_enabled_published : frame.

Lemma handle_published_other e :
  match e with
  | CmdTimer _ => True
  | _ => preserves published (handle e)
  end.
Proof. destruct e; try done; simpl; frame. Qed.

(** X11: messages leave the plugin only through the command timer's
    callback, only while a publisher exists, and one at a time: every
    other event, and every failing synthesis cycle, leaves the published
    messages as they are. *)
Theorem publish_only_from_cmd_timer (e : event) (s : Plugin) :
  published (step s e) = published s
  ∨ ((∃ Duration_to_msg, e = CmdTimer Duration_to_msg) ∧ bound s = true
     ∧ ∃ traj, step s e = set_published (published s ++ [traj]) s).
Proof.
  pose proof (handle_published_other e) as Hother.
  destruct e as [| | | | | | |Duration_to_msg];
    try (left; by apply Hother). clear Hother.
  set (r := step s (CmdTimer Duration_to_msg)).
  assert (r = (_update_cmd_cb Duration_to_msg s).2) as Hr by done.
  clearbody r.
  unfold _update_cmd_cb in Hr.
  unfold mbind at 1, M_bind, bind at 1, get in Hr.
  pose proof (preserves_for_fold (λ s, s) (_joint_names s) ([], [])
                update_cmd_body update_cmd_body_state s) as Hs.
  destruct (for_fold _ _ _ s) as [[acc|e] s'] eqn:Hloop;
    simpl in Hs; subst s'.
  - erewrite bind_ok in Hr by exact Hloop.
    unfold lift in Hr. unfold_M.
    destruct (pymax_list acc.1) as [longest|e]; [|left; by subst r].
    destruct (pydiv longest (_speed_scale s)) as [seconds|e];
      [|left; by subst r].
    destruct (Duration_to_msg seconds) as [duration|e];
      [|left; by subst r].
    destruct (_cmd_pub s) as [topic|] eqn:Hpub; [|left; by subst r].
    right. split; [by eexists|].
    split; [unfold bound; by rewrite Hpub|].
    eexists. exact Hr.
  - erewrite bind_raise in Hr by exact Hloop. left. by subst r.
Qed.

(** ** The first discovery *)

Lemma primed_is_Some get_joint_limits (l : list ControllerInfo)
    (limits : gmap string JointLimits) joint :
  is_Some (primed get_joint_limits l limits !! joint)
  ↔ is_Some (limits !! joint)
    ∨ ∃ c, c ∈ l ∧ is_Some (get_joint_limits (_jtc_joint_names c) !! joint).
Proof.
  unfold primed. revert limits.
  induction l as [|c l IH]; intros limits; simpl.
  - split; [by left|]. intros [?|(c & Hc & _)]; [done|].
    by apply elem_of_nil in Hc.
  - rewrite IH, lookup_union_is_Some. split.
    + intros [[Hc|Hm]|(c' & Hc' & Hj)]; [right|by left|right].
      * exists c. split; [by left|done].
      * exists c'. split; [by right|done].
    + intros [Hm|(c' & Hc' & Hj)]; [left; by right|].
      apply elem_of_cons in Hc' as [->|Hc']; [left; by left|].
      right. by exists c'.
Qed.

(** X12: a discovery cycle that has controller information and finds
    the joint-limit cache empty looks the limits up once per running
    controller of the reply, in the reply's order, asking for that
    controller's joint names; the cache then holds exactly the joints
    some lookup answered. Without running controllers nothing is looked
    up. *)
Theorem discovery_primes_cache (snapshot : list ControllerInfo)
    (get_joint_limits : list string → gmap string JointLimits)
    (s : Plugin) :
  _list_controllers s ≠ None →
  size (_robot_joint_limits s) = 0 →
  let after := (_update_jtc_list snapshot get_joint_limits s).2 in
  limit_lookups after
  = limit_lookups s ++ map _jtc_joint_names (running_controllers snapshot)
  ∧ _robot_joint_limits after
    = primed get_joint_limits (running_controllers snapshot) ∅
  ∧ ∀ joint,
      is_Some (_robot_joint_limits after !! joint)
      ↔ ∃ c, c ∈ running_controllers snapshot
             ∧ is_Some (get_joint_limits (_jtc_joint_names c) !! joint).
Proof.
  intros Hl Hsize after. subst after.
  rewrite (update_jtc_list_run _ _ _ Hl). unfold discovered.
  rewrite (bool_decide_eq_true_2 (size (_robot_joint_limits s) = 0))
    by done.
  rewrite andb_true_r.
  assert (∀ joint,
            is_Some (primed get_joint_limits (running_controllers snapshot)
                       ∅ !! joint)
            ↔ ∃ c, c ∈ running_controllers snapshot
                   ∧ is_Some (get_joint_limits (_jtc_joint_names c)
                              !! joint)) as Hdom.
  { intros joint. rewrite primed_is_Some, lookup_empty.
    split; [|by right]. intros [[? ?]|?]; done. }
  destruct (bool_decide (running_controllers snapshot = [])) eqn:Hrun;
    cbn [negb snd].
  - apply bool_decide_eq_true in Hrun. rewrite Hrun in *. simpl.
    rewrite app_nil_r. apply map_size_empty_inv in Hsize.
    split; [done|]. split; [done|]. intros joint.
    change (_robot_joint_limits (set_jtc_combo _ s))
      with (_robot_joint_limits s).
    rewrite Hsize. apply (Hdom joint).
  - split; [done|]. split; [done|]. exact Hdom.
Qed.

(** X12 on the sample listing: a first cycle for two controllers. *)
Lemma discovery_primes_cache_example :
  limit_lookups
    (_update_jtc_list [arm; wrist ["j3/position"]] urdf_limits waiting).2
  = [["j1"; "j2"]; ["j3"]].
Proof.
  destruct (discovery_primes_cache [arm; wrist ["j3/position"]] urdf_limits
              waiting) as (-> & _).
  - discriminate.
  - vm_compute. reflexivity.
  - vm_compute. reflexivity.
Defined.

(** ** Topic names *)

(** X13: for every controller-manager namespace and every non-empty
    controller name the resolved namespace ends in a slash followed by
    the controller name. *)
Theorem resolve_ends_with_name (cm_ns controller_name : string) :
  controller_name ≠ "" →
  ∃ parent,
    _resolve_controller_ns cm_ns controller_name
    = Ok (parent +:+ "/" +:+ controller_name).
Proof.
  intros Hne. unfold _resolve_controller_ns.
  destruct controller_name as [|c n]; [done|]. simpl truthy. cbv iota.
  set (ns := hd EmptyString (Str.rsplit1 cm_ns)).
  case_bool_decide as Hroot.
  - exists ns. by rewrite append_assoc.
  - exists "". by rewrite Hroot.
Qed.

(** X13 on a namespaced controller manager. *)
Lemma resolve_ends_with_name_example :
  ∃ parent,
    _resolve_controller_ns "/robot/controller_manager" "arm"
    = Ok (parent +:+ "/" +:+ "arm").
Proof. apply resolve_ends_with_name. discriminate. Defined.

(** ** Deselecting the controller manager *)

Lemma unloaded_unbound jtc_name s :
  bound (set_jtc_name (Some jtc_name) (unloaded s)) = false.
Proof.
  unfold bound. apply bool_decide_eq_false. intros Hpub. apply Hpub.
  unfold unloaded.
  destruct (enable_button s); [destruct (selected s)|]; reflexivity.
Qed.

(** X14: choosing no controller manager drops the controller lister
    and changes nothing else; a discovery cycle after that returns with
    the controller combo box empty, having asked nobody: no joint limits
    are looked up and the cache is as it was; and selecting a controller
    raises [TypeError] without binding anything. *)
Theorem no_controller_manager (snapshot snapshot' : list ControllerInfo)
    (get_joint_limits get_joint_limits' :
       list string → gmap string JointLimits)
    (jtc_name : string) (s : Plugin) :
  let s1 := step s (CmChange "" snapshot get_joint_limits) in
  let cycle := _update_jtc_list snapshot' get_joint_limits' s1 in
  s1 = set_list_controllers None (set_cm_ns (Some "") s)
  ∧ (cycle.1 = Ok tt
     ∧ jtc_combo cycle.2 = []
     ∧ limit_lookups cycle.2 = limit_lookups s
     ∧ _robot_joint_limits cycle.2 = _robot_joint_limits s)
  ∧ (truthy jtc_name = true →
     (_on_jtc_change snapshot' jtc_name s1).1 = Raise TypeError
     ∧ bound (_on_jtc_change snapshot' jtc_name s1).2 = false).
Proof.
  intros s1 cycle.
  assert (s1 = set_list_controllers None (set_cm_ns (Some "") s))
    as Hs1 by done.
  split; [done|]. split.
  - assert (cycle = (Ok tt, set_jtc_combo [] s1)) as ->; [|by rewrite Hs1].
    unfold cycle, _update_jtc_list. unfold_M. by rewrite Hs1.
  - intros Hn. rewrite on_jtc_change_run, Hn. unfold _load_jtc.
    destruct (unloaded_fields jtc_name s1) as (_ & Hl & _).
    erewrite bind_raise; last first.
    { rewrite load_joint_data_run, Hl, Hs1. done. }
    split; [done|]. apply unloaded_unbound.
Qed.

(** X14 after the sample session. *)
Lemma no_controller_manager_example :
  (_on_jtc_change [arm] "arm"
     (step monitoring (CmChange "" [arm] urdf_limits))).1
  = Raise TypeError.
Proof.
  destruct (no_controller_manager [arm] [arm] urdf_limits urdf_limits "arm"
              monitoring) as (_ & _ & H).
  destruct H as [H _]; [reflexivity|exact H].
Defined.

(** ** When a synthesis cycle publishes *)

Lemma update_cmd_body_ok_ready acc name s acc' s' :
  update_cmd_body acc name s = (Ok acc', s') → ready s name.
Proof.
  unfold update_cmd_body, ready, joint_position, pydiv. unfold_M. simpl.
  destruct (_joint_pos s !! name) as [entry|]; simpl; [|done].
  destruct (position entry) as [pos|]; [|done].
  destruct (_robot_joint_limits s !! name) as [limits|]; [|done].
  destruct (PrimFloat.eqb (max_velocity limits) 0) eqn:Hvel; [done|].
  intros _. split; [by eexists|]. by exists limits.
Qed.

Lemma update_cmd_loop_ok_ready (l : list string) acc s acc' s' :
  for_fold l acc update_cmd_body s = (Ok acc', s') →
  ∀ name, name ∈ l → ready s name.
Proof.
  revert acc. induction l as [|x l IH]; intros acc Hrun name Hin;
    [by apply elem_of_nil in Hin|].
  simpl in Hrun. pose proof (update_cmd_body_state acc x s) as Hs.
  destruct (update_cmd_body acc x s) as [[acc1|e] s1] eqn:Hstep;
    simpl in Hs; subst s1.
  - erewrite bind_ok in Hrun by exact Hstep.
    apply elem_of_cons in Hin as [->|Hin].
    + by eapply update_cmd_body_ok_ready.
    + by eapply IH.
  - by erewrite bind_raise in Hrun by exact Hstep.
Qed.

(** X15: a synthesis cycle returns, having published its message,
    exactly when a publisher exists, the session has at least one joint,
    every joint has a position and limits with a velocity limit other
    than zero, the speed scale is not zero, and [Duration] makes a
    message of the resulting seconds; in every other case it raises and
    leaves all attributes as they were. *)
Theorem synthesis_publishes_iff
    (Duration_to_msg : float → result DurationMsg) (s : Plugin) :
  let cycle := _update_cmd_cb Duration_to_msg s in
  (cycle.1 = Ok tt
   ↔ bound s = true
     ∧ _joint_names s ≠ []
     ∧ (∀ name, name ∈ _joint_names s → ready s name)
     ∧ PrimFloat.eqb (_speed_scale s) 0 = false
     ∧ is_ok (Duration_to_msg (trajectory_duration s)) = true)
  ∧ (cycle.1 ≠ Ok tt → cycle.2 = s)
  ∧ (cycle.1 = Ok tt →
     ∃ duration,
       Duration_to_msg (trajectory_duration s) = Ok duration
       ∧ cycle.2
         = set_published (published s ++ [synthesized duration s]) s).
Proof.
  intros cycle.
  assert (cycle = _update_cmd_cb Duration_to_msg s) as Hr by done.
  clearbody cycle. rename cycle into r.
  unfold _update_cmd_cb in Hr.
  unfold mbind at 1, M_bind, bind at 1, get in Hr.
  pose proof (preserves_for_fold (λ s, s) (_joint_names s) ([], [])
                update_cmd_body update_cmd_body_state s) as Hs.
  destruct (for_fold _ _ _ s) as [[acc|e] s'] eqn:Hloop;
    simpl in Hs; subst s'.
  - pose proof (update_cmd_loop_ok_ready _ _ _ _ _ Hloop) as Hready.
    rewrite (update_cmd_loop_ready _ _ _ Hready) in Hloop.
    injection Hloop as <-.
    erewrite bind_ok in Hr by (by apply update_cmd_loop_ready).
    simpl in Hr.
    unfold lift, pydiv in Hr. unfold_M.
    unfold synthesized, trajectory_duration, max_over, bound.
    destruct (_joint_names s) as [|x l] eqn:Hnames.
    { simpl in Hr. subst r. simpl.
      split; [|done]. split; [done|]. by intros (_ & ? & _). }
    simpl in Hr.
    destruct (PrimFloat.eqb (_speed_scale s) 0) eqn:Hscale.
    { subst r. simpl. split; [|done]. split; [done|].
      by intros (_ & _ & _ & ? & _). }
    simpl.
    destruct (Duration_to_msg _) as [duration|e] eqn:Hduration.
    2:{ subst r. simpl. split; [|done]. split; [done|].
        by intros (_ & _ & _ & _ & ?). }
    destruct (_cmd_pub s) as [topic|] eqn:Hpub.
    + subst r. simpl. split; [|split; [done|]].
      * split; [|done]. intros _. done.
      * intros _. by exists duration.
    + subst r. simpl. split; [|done]. split; [done|].
      by intros (Hb & _).
  - erewrite bind_raise in Hr by exact Hloop. subst r. simpl.
    split; [|done]. split; [done|]. intros (_ & _ & Hready & _).
    rewrite (update_cmd_loop_ready _ _ _ Hready) in Hloop. done.
Qed.

(** ** What a click leaves alone *)

(** X16: a click on the enable button, accepted or refused, changes
    neither the selection nor the session: names, runtime state, joint
    order, limits, speed scale, publisher and subscription are the same
    afterwards, nothing is published and nothing looked up. *)
Theorem toggle_keeps_session (val : bool) (s : Plugin) :
  session_data (user_toggle val s).2 = session_data s.
Proof.
  rewrite user_toggle_run.
  destruct (Bool.eqb (enable_button s) val); [done|].
  rewrite on_jtc_enabled_run.
  change (selected (set_enable_button val s)) with (selected s).
  change (joint_group (set_enable_button val s)) with (joint_group s).
  destruct (selected s); [|done].
  destruct (joint_group s); [|done]. unfold switched. by destruct val.
Qed.

(** ** From an edit to the wire *)

(** X17: in a bound session whose joints all have a position and usable
    limits, an edit of one joint followed by a synthesis cycle for whose
    seconds [Duration] makes a message publishes exactly one message, in
    the session's joint order, whose position for the edited joint is
    the edited value and whose position for every other joint is what
    would have been sent without the edit. *)
Theorem edited_value_is_sent
    (Duration_to_msg : float → result DurationMsg)
    (duration : DurationMsg) (val : float) (name : string) (s : Plugin) :
  bound s = true →
  name ∈ _joint_names s →
  (∀ joint, joint ∈ _joint_names s → ready s joint) →
  PrimFloat.eqb (_speed_scale s) 0 = false →
  Duration_to_msg (trajectory_duration (step s (EditJoint val name)))
  = Ok duration →
  published (run [EditJoint val name; CmdTimer Duration_to_msg] s)
  = published s
    ++ [{| joint_names := _joint_names s;
           points :=
             [{| positions :=
                   map (λ joint, if bool_decide (joint = name) then val
                                 else target s joint)
                     (_joint_names s);
                 time_from_start := duration |}] |}].
Proof.
  intros Hbound Hin Hready Hscale Hduration.
  destruct (Hready name Hin) as [[pos Hpos] _].
  unfold joint_position in Hpos.
  destruct (_joint_pos s !! name) as [entry|] eqn:Hentry; [|done].
  set (s1 := set_joint_pos
               (<[name := {| position := position entry;
                             command := Some val |}]> (_joint_pos s)) s).
  assert (step s (EditJoint val name) = s1) as Hstep.
  { unfold step, handle, _update_single_cmd_cb. unfold_M. simpl.
    by rewrite Hentry. }
  rewrite Hstep in Hduration.
  assert (∀ joint, joint_position s1 joint = joint_position s joint)
    as Hsame.
  { intros joint. unfold joint_position, s1. simpl.
    destruct (decide (joint = name)) as [->|Hne].
    - by rewrite lookup_insert_eq, Hentry.
    - by rewrite lookup_insert_ne. }
  assert (∀ joint, target s1 joint
                   = if bool_decide (joint = name) then val
                     else target s joint) as Htarget.
  { intros joint. unfold target. rewrite Hsame.
    unfold joint_command, s1. simpl. case_bool_decide as Hj.
    - subst joint. by rewrite lookup_insert_eq.
    - by rewrite lookup_insert_ne. }
  unfold run. simpl. rewrite Hstep. unfold step, handle.
  rewrite update_cmd_cb_ready, Hduration.
  - unfold bound in Hbound. apply bool_decide_eq_true in Hbound.
    change (_cmd_pub s1) with (_cmd_pub s).
    destruct (_cmd_pub s) as [topic|]; [|done].
    unfold synthesized. simpl. do 4 f_equal.
    f_equal. apply map_ext. intros joint. apply Htarget.
  - intros Hnil. change (_joint_names s1) with (_joint_names s) in Hnil.
    rewrite Hnil in Hin. by apply elem_of_nil in Hin.
  - intros joint Hjoint. destruct (Hready joint Hjoint) as [Hp Hl].
    split; [by rewrite Hsame|exact Hl].
  - exact Hscale.
Qed.

(** X17 on the sample session in control mode: the edit of [j1] to 0.25
    goes out as the single position of the next message. *)
Lemma edited_value_is_sent_example :
  published (run [EditJoint 0.25%float "j1"; CmdTimer rclpy_duration]
               (commanding 1%float))
  = [{| joint_names := ["j1"];
        points := [{| positions := [0.25%float];
                      time_from_start :=
                        {| sec := 0; nanosec := 500000000 |} |}] |}].
Proof.
  apply (edited_value_is_sent rclpy_duration
           {| sec := 0; nanosec := 500000000 |} 0.25%float "j1"
           (commanding 1%float)).
  - vm_compute. reflexivity.
  - vm_compute. left.
  - intros joint Hjoint. apply list_elem_of_singleton in Hjoint as ->.
    split; [vm_compute; eauto|].
    eexists. split; vm_compute; reflexivity.
  - vm_compute. reflexivity.
  - vm_compute. reflexivity.
Defined.

(** ** Feedback the session cannot take *)

Lemma for_each_app {A} (l1 l2 : list A) (body : A → M unit) s s1 :
  for_each l1 body s = (Ok tt, s1) →
  for_each (l1 ++ l2) body s = for_each l2 body s1.
Proof.
  revert s. induction l1 as [|x l1 IH]; intros s; simpl.
  - by intros [= ->].
  - destruct (body x s) as [[[]|e] s'] eqn:Hstep.
    + erewrite !bind_ok by exact Hstep. apply IH.
    + by erewrite !bind_raise by exact Hstep.
Qed.

(** X18: a report whose number of joints differs from the number of
    joints of the connected session is rejected by the assertion of
    [_on_joint_state_change] before any entry is written: the slot
    raises [AssertionError], the callback that emitted the signal
    returns, and no attribute changes. *)
Theorem feedback_wrong_size (msg : ControllerState) (s : Plugin) :
  jointStateChanged s = true →
  NoDup (msg_joint_names msg) →
  length (msg_joint_names msg) ≤ length (msg_feedback_positions msg) →
  length (msg_joint_names msg) ≠ size (_joint_pos s) →
  _state_cb msg s = (Ok tt, s)
  ∧ ∃ current_pos,
      zip_positions (msg_joint_names msg) (msg_feedback_positions msg) []
      = Ok current_pos
      ∧ _on_joint_state_change current_pos s = (Raise AssertionError, s).
Proof.
  intros Hconn Hnd Hlen Hsize.
  destruct (zip_positions_spec (msg_joint_names msg)
              (msg_feedback_positions msg) [] Hlen Hnd)
    as (d & Hd & Hkeys & _).
  { intros n _. apply not_elem_of_nil. }
  simpl in Hkeys.
  assert (_on_joint_state_change d s = (Raise AssertionError, s)) as Hslot.
  { unfold _on_joint_state_change. unfold_M.
    rewrite bool_decide_eq_false_2; [done|].
    by rewrite <- (length_map fst), Hkeys. }
  split; [|by exists d].
  rewrite state_cb_unfold, Hd.
  unfold emit_jointStateChanged, try_except. unfold_M.
  by rewrite Hconn, Hslot.
Qed.

(** X18 on the sample session of two joints and a report for one. *)
Lemma feedback_wrong_size_example :
  _state_cb {| msg_joint_names := ["j1"];
               msg_feedback_positions := [0.5%float] |} monitoring
  = (Ok tt, monitoring)
  ∧ _on_joint_state_change [("j1", 0.5%float)] monitoring
    = (Raise AssertionError, monitoring).
Proof.
  destruct (feedback_wrong_size
              {| msg_joint_names := ["j1"];
                 msg_feedback_positions := [0.5%float] |} monitoring)
    as (Hrun & current_pos & Hzip & Hslot).
  - vm_compute. reflexivity.
  - simpl. apply NoDup_singleton.
  - simpl. lia.
  - vm_compute. lia.
  - split; [exact Hrun|]. injection Hzip as <-. exact Hslot.
Defined.

(** X19: the update of the runtime state is not atomic. On a report of
    the right size that names a joint the session does not have, the
    slot raises [KeyError] at that joint, and the joints named before it
    have by then received their positions: they keep them, every other
    entry is as before, and the callback that emitted the signal
    returns. *)
Theorem feedback_unknown_joint (msg : ControllerState) (s : Plugin)
    (known rest : list string) (unknown : string) :
  jointStateChanged s = true →
  msg_joint_names msg = known ++ unknown :: rest →
  NoDup (msg_joint_names msg) →
  length (msg_joint_names msg) ≤ length (msg_feedback_positions msg) →
  length (msg_joint_names msg) = size (_joint_pos s) →
  (∀ n, n ∈ known → is_Some (_joint_pos s !! n)) →
  _joint_pos s !! unknown = None →
  ∃ table,
    _state_cb msg s = (Ok tt, set_joint_pos table s)
    ∧ (∃ current_pos,
         zip_positions (msg_joint_names msg) (msg_feedback_positions msg) []
         = Ok current_pos
         ∧ _on_joint_state_change current_pos s
           = (Raise (KeyError unknown), set_joint_pos table s))
    ∧ (∀ i n p entry,
         known !! i = Some n →
         msg_feedback_positions msg !! i = Some p →
         _joint_pos s !! n = Some entry →
         table !! n
         = Some {| position := Some p; command := command entry |})
    ∧ ∀ n, n ∉ known → table !! n = _joint_pos s !! n.
Proof.
  intros Hconn Hnames Hnd Hlen Hsize Hknown Hunknown.
  destruct (zip_positions_spec (msg_joint_names msg)
              (msg_feedback_positions msg) [] Hlen Hnd)
    as (d & Hd & Hkeys & Hget & _).
  { intros n _. apply not_elem_of_nil. }
  simpl in Hkeys.
  assert (∀ n, n ∈ msg_joint_names msg → n ∈ map fst d) as Hin
    by (intros n; by rewrite Hkeys).
  destruct (store_position_loop d known s) as (table & Hrun & Htable).
  { intros n Hn. split; [by apply Hknown|].
    apply Hin. rewrite Hnames. apply elem_of_app. by left. }
  assert (unknown ∉ known) as Hfresh.
  { rewrite Hnames in Hnd. apply NoDup_app in Hnd as (_ & Hdisj & _).
    intros Hk. apply (Hdisj _ Hk). by left. }
  assert (_on_joint_state_change d s
          = (Raise (KeyError unknown), set_joint_pos table s)) as Hslot.
  { unfold _on_joint_state_change. unfold_M.
    rewrite bool_decide_eq_true_2
      by (by rewrite <- Hsize, <- Hkeys, length_map).
    rewrite Hkeys, Hnames.
    rewrite (for_each_app _ _ _ _ _ Hrun). simpl.
    destruct (dict_get_elem_of d unknown) as [v Hv].
    { apply Hin. rewrite Hnames. apply elem_of_app. right. by left. }
    erewrite bind_raise; [done|].
    unfold store_position. unfold_M. simpl. rewrite Hv. simpl.
    by rewrite Htable, bool_decide_eq_false_2, Hunknown by done. }
  exists table. split; [|split; [by exists d|split]].
  - rewrite state_cb_unfold, Hd.
    unfold emit_jointStateChanged, try_except. unfold_M.
    by rewrite Hconn, Hslot.
  - intros i n p entry Hn Hp Hentry. rewrite Htable.
    rewrite bool_decide_eq_true_2 by (by eapply list_elem_of_lookup_2).
    rewrite Hentry. simpl. unfold updated_entry.
    rewrite (Hget i n p); [done| |done].
    rewrite Hnames. by apply lookup_app_l_Some.
  - intros n Hn. rewrite Htable. by rewrite bool_decide_eq_false_2.
Qed.

(** X19 on the sample session: [j1] is stored although the slot fails
    at [j9]. *)
Lemma feedback_unknown_joint_example :
  ∃ table,
    _state_cb {| msg_joint_names := ["j1"; "j9"];
                 msg_feedback_positions := [0.5%float; 0.25%float] |}
      monitoring
    = (Ok tt, set_joint_pos table monitoring)
    ∧ table !! "j1" = Some {| position := Some 0.5%float; command := None |}.
Proof.
  destruct (feedback_unknown_joint
              {| msg_joint_names := ["j1"; "j9"];
                 msg_feedback_positions := [0.5%float; 0.25%float] |}
              monitoring ["j1"] [] "j9")
    as (table & Hrun & _ & Hstored & _).
  - vm_compute. reflexivity.
  - reflexivity.
  - simpl. apply NoDup_cons. split; [|apply NoDup_singleton].
    intros Hin. apply list_elem_of_singleton in Hin. discriminate.
  - simpl. lia.
  - vm_compute. reflexivity.
  - intros n Hn. apply list_elem_of_singleton in Hn as ->.
    vm_compute. eauto.
  - vm_compute. reflexivity.
  - exists table. split; [exact Hrun|].
    apply (Hstored 0 "j1" 0.5%float
             {| position := None; command := None |});
      vm_compute; reflexivity.
Defined.
